(** * qiskit-aqua: SVMInput and UnivariateVariationalDistribution

    A shallow embedding of

    - [qiskit_aqua/input/svminput.py] (class [SVMInput]), and
    - [qiskit/aqua/components/uncertainty_models/univariate_variational_distribution.py]
      (class [UnivariateVariationalDistribution]),

    followed by the properties of the two classes.

    Conventions.
    - Python exceptions are values of [exception]; a call that may raise
      returns a [result].
    - Methods that mutate an object ([build] mutates the circuit it is given,
      [set_probabilities] mutates [self]) run in the state-and-exception monad
      [M S], so that the state left behind by a raising call is visible.
    - Numbers: Python [int] is [Z]; numpy's [int64] is [Z] with its
      wrap-around written out; Python and numpy floats are carried by [Q].
      Every finite float is a rational; the rounding of float operations is
      not part of the model, float sums and quotients are exact.  A quotient
      by a zero total has no rational value (numpy stores nan or inf); the
      statements about stored quotients assume a positive total.
    - The circuit framework is external.  What its operations do to a
      circuit when they accept their arguments is written out; when they
      reject them they raise, and which arguments they reject is a
      parameter of the model ([Framework]), so that the statements hold for
      every version of the framework's checks. *)

From Stdlib Require Import QArith ZArith List Sorting.Sorted Permutation OrderedTypeEx.
From Stdlib Require Import Lia Lqa Ascii.
From stdpp Require Import gmap strings list fin_maps sorting.

Set Warnings "-register-all".
Local Open Scope string_scope.
Local Open Scope list_scope.

(** ** Exceptions and the two monads *)

Inductive exception : Type :=
| AlgorithmError (msg : string)   (* qiskit_aqua.AlgorithmError *)
| KeyError (key : string)         (* dict lookup of a missing key *)
| ValueError (msg : string)       (* numpy: ambiguous truth value *)
| ExternalError (msg : string)    (* anything a collaborator raises *)
| CircuitError (msg : string).    (* raised by the circuit framework *)

Inductive result (A : Type) : Type :=
| Ok (a : A)
| Raise (e : exception).
Arguments Ok {A} a.
Arguments Raise {A} e.

Definition rbind {A B} (r : result A) (k : A -> result B) : result B :=
  match r with
  | Ok a => k a
  | Raise e => Raise e
  end.

(** A computation over a mutable object of type [S]: it returns the object
    as the call leaves it, together with the value or the exception. *)
Definition M (S A : Type) : Type := S -> S * result A.

Definition mret {S A} (a : A) : M S A := fun s => (s, Ok a).

Definition mbind {S A B} (m : M S A) (k : A -> M S B) : M S B :=
  fun s =>
    match m s with
    | (s', Ok a) => k a s'
    | (s', Raise e) => (s', Raise e)
    end.

Definition mget {S} : M S S := fun s => (s, Ok s).
Definition mput {S} (s' : S) : M S unit := fun _ => (s', Ok tt).

(** A call to a collaborator: it does not touch the object, and what it
    raises is raised on. *)
Definition call {S A} (r : result A) : M S A := fun s => (s, r).

Declare Scope py_scope.
Delimit Scope py_scope with py.
Notation "x <- m ;; k" := (mbind m (fun x => k))
  (at level 100, m at next level, right associativity) : py_scope.
Notation "x <-? r ;; k" := (rbind r (fun x => k))
  (at level 100, r at next level, right associativity) : py_scope.

(** ** Python values *)

(** The values the fields of an [SVMInput] hold.  A [dict] is kept in
    insertion order; a numpy array is its shape and its elements in row-major
    order. *)
Inductive value : Type :=
| VNone
| VBool (b : bool)
| VInt (z : Z)
| VFloat (q : Q)
| VStr (s : string)
| VList (l : list value)
| VDict (d : list (string * value))
| VNdarray (shape : list nat) (data : list Q).

(** [bool(v)].  For a numpy array: an empty array is false, an array of one
    element has the truth value of the element, and a larger array raises
    ValueError. *)
Definition truth (v : value) : result bool :=
  match v with
  | VNone => Ok false
  | VBool b => Ok b
  | VInt z => Ok (negb (z =? 0)%Z)
  | VFloat q => Ok (negb (Qeq_bool q 0))
  | VStr s => Ok (negb (Stdlib.Strings.String.eqb s ""))
  | VList l => Ok (match l with [] => false | _ => true end)
  | VDict d => Ok (match d with [] => false | _ => true end)
  | VNdarray _ data =>
      match data with
      | [] => Ok false
      | [x] => Ok (negb (Qeq_bool x 0))
      | _ =>
          Raise (ValueError
            "The truth value of an array with more than one element is ambiguous. Use a.any() or a.all()")
      end
  end.

(** [x or y], with [y] already evaluated (both right operands in the source
    are constructors of empty containers, which cannot raise). *)
Definition py_or (x y : value) : result value :=
  (b <-? truth x ;; Ok (if b then x else y))%py.

(** [np.asarray([])]: the empty one-dimensional float array. *)
Definition np_asarray_empty : value := VNdarray [0%nat] [].

(** [key in d] and [d[key]] on a dict used as a map. *)
Definition contains (d : gmap string value) (key : string) : bool :=
  match d !! key with
  | Some _ => true
  | None => false
  end.

Definition getitem (d : gmap string value) (key : string) : result value :=
  match d !! key with
  | Some v => Ok v
  | None => Raise (KeyError key)
  end.

(** ** [SVMInput] *)

Module SVMInput.

(** The instance attributes. *)
Record t : Type := mk {
  training_dataset : value;
  test_dataset : value;
  datapoints : value
}.

(** [__init__(self, training_dataset, test_dataset=None, datapoints=None)].
    An omitted argument is [VNone].  The attributes are assigned in order,
    so the truth value of [test_dataset] is taken first. *)
Definition __init__ (training_dataset test_dataset datapoints : value)
  : result t :=
  (test_dataset' <-? py_or test_dataset (VDict []) ;;
   datapoints' <-? py_or datapoints np_asarray_empty ;;
   Ok (mk training_dataset test_dataset' datapoints'))%py.

Definition to_params (self : t) : gmap string value :=
  let params : gmap string value := ∅ in
  let params := <["training_dataset" := training_dataset self]> params in
  let params := <["test_dataset" := test_dataset self]> params in
  let params := <["datapoints" := datapoints self]> params in
  params.

Definition from_params (params : gmap string value) : result t :=
  if negb (contains params "training_dataset") then
    Raise (AlgorithmError "training_dataset is required.")
  else
    (training_dataset <-? getitem params "training_dataset" ;;
     test_dataset <-? getitem params "test_dataset" ;;
     datapoints <-? getitem params "datapoints" ;;
     __init__ training_dataset test_dataset datapoints)%py.

End SVMInput.


(** ** The quantum framework, as far as the class uses it *)

(** A circuit is its registers and its sequence of instructions; a bit is
    a register name and an index in that register. *)
Record Register : Type := mkRegister {
  reg_size : nat;
  reg_name : string
}.

Definition Bit : Type := string * nat.

Inductive Instruction : Type :=
| Gate (name : string) (angles : list Q) (qargs : list Bit)
| Measure (qubit clbit : Bit).

Record Circuit : Type := mkCircuit {
  qregs : list Register;
  cregs : list Register;
  data : list Instruction
}.

#[global] Instance Register_eq_dec : EqDecision Register.
Proof. solve_decision. Defined.

(** The checks of the framework: for each operation that validates its
    arguments, the exception it raises on them, if any. *)
Record Framework : Type := mkFramework {
  qreg_error : nat -> string -> option exception;
  creg_error : nat -> string -> option exception;
  extend_error : Circuit -> Circuit -> option exception;
  add_register_error : Circuit -> Register -> option exception;
  measure_error : Circuit -> Register -> Register -> option exception
}.

(** An operation that validates and then returns [a]. *)
Definition checked {A : Type} (error : option exception) (a : A) : result A :=
  match error with
  | Some e => Raise e
  | None => Ok a
  end.

(** [QuantumRegister(n, name=...)], [ClassicalRegister(n, name=...)] and
    [QuantumCircuit(q)]. *)
Definition QuantumRegister (fw : Framework) (n : nat) (name : string)
  : result Register :=
  checked (qreg_error fw n name) (mkRegister n name).
Definition ClassicalRegister (fw : Framework) (n : nat) (name : string)
  : result Register :=
  checked (creg_error fw n name) (mkRegister n name).
Definition QuantumCircuit (q : Register) : Circuit := mkCircuit [q] [] [].

(** The registers of [new] that [regs] does not have yet, appended. *)
Definition add_missing (regs new : list Register) : list Register :=
  fold_left (fun acc r => if bool_decide (r ∈ acc) then acc else acc ++ [r])
            new regs.

(** [qc.extend(rhs)] and [qc += rhs]: when the framework accepts the two
    circuits, the registers [qc] lacks are added and the instructions of
    [rhs] are concatenated onto [qc].  The check comes before anything is
    appended. *)
Definition extended (qc rhs : Circuit) : Circuit :=
  mkCircuit (add_missing (qregs qc) (qregs rhs))
            (add_missing (cregs qc) (cregs rhs))
            (data qc ++ data rhs).

Definition extend (fw : Framework) (qc rhs : Circuit) : result Circuit :=
  checked (extend_error fw qc rhs) (extended qc rhs).

(** [qc.add_register(c)] for a classical register. *)
Definition with_register (qc : Circuit) (c : Register) : Circuit :=
  mkCircuit (qregs qc) (cregs qc ++ [c]) (data qc).

Definition add_register (fw : Framework) (qc : Circuit) (c : Register)
  : result Circuit :=
  checked (add_register_error fw qc c) (with_register qc c).

(** [qc.measure(q, c)] on whole registers: qubit [i] of [q] is measured into
    bit [i] of [c]. *)
Definition measured_into (qc : Circuit) (q c : Register) : Circuit :=
  mkCircuit (qregs qc) (cregs qc)
            (data qc ++
             map (fun i => Measure (reg_name q, i) (reg_name c, i))
                 (seq 0 (reg_size q))).

Definition measure (fw : Framework) (qc : Circuit) (q c : Register)
  : result Circuit :=
  checked (measure_error fw qc q c) (measured_into qc q c).

(** Complex amplitudes and the numpy operations on them. *)
Definition complex : Type := Q * Q.

Definition Cmult (a b : complex) : complex :=
  (a.1 * b.1 - a.2 * b.2, a.1 * b.2 + a.2 * b.1)%Q.
Definition Cconj (a : complex) : complex := (a.1, - a.2)%Q.

Definition np_conj (v : list complex) : list complex := map Cconj v.
Definition np_multiply (v w : list complex) : list complex :=
  zip_with Cmult v w.
Definition real (v : list complex) : list Q := map fst v.
Definition np_zeros (k : nat) : list Q := repeat 0%Q k.

(** A 64-bit signed integer: the representative of [z] modulo [2^64] in
    [[-2^63, 2^63)]. *)
Definition wrap_int64 (z : Z) : Z :=
  ((z + 2 ^ 63) mod 2 ^ 64 - 2 ^ 63)%Z.

(** [np.sum] of a list of Python ints that fit [int64]: the array is of
    type [int64] and the sum wraps around silently. *)
Definition np_sum (values : list Z) : Z :=
  wrap_int64 (fold_right Z.add 0%Z values).

(** [float(v)]. *)
Definition float (v : Z) : Q := inject_Z v.

(** [a < b] on tuples [(key, value)]: decided at the first component where
    the two differ. *)
Definition tuple_lt (a b : string * Q) : bool :=
  if Stdlib.Strings.String.eqb a.1 b.1 then
    if Qeq_bool a.2 b.2 then false else negb (Qle_bool b.2 a.2)
  else Stdlib.Strings.String.ltb a.1 b.1.

(** [sorted]: a stable sort that only asks [<]. *)
Fixpoint insert_sorted (x : string * Q) (l : list (string * Q))
  : list (string * Q) :=
  match l with
  | [] => [x]
  | y :: l' => if tuple_lt x y then x :: l else y :: insert_sorted x l'
  end.

Definition sorted (l : list (string * Q)) : list (string * Q) :=
  fold_left (fun acc x => insert_sorted x acc) l [].

(** The collaborators.  Each of their methods may raise. *)
Record VariationalForm : Type := mkVariationalForm {
  vf_construct_circuit : list Q -> Register -> result Circuit
}.

Record InitialState : Type := mkInitialState {
  is_construct_circuit : string -> Register -> result Circuit
}.

(** What [quantum_instance.execute] returns; [get_counts] is a dict from
    bit-string to count, in the order the backend filled it. *)
Record Result : Type := mkResult {
  get_statevector : Circuit -> result (list complex);
  get_counts : Circuit -> result (list (string * Z))
}.

Record QuantumInstance : Type := mkQuantumInstance {
  is_statevector : bool;
  execute : Circuit -> result Result
}.

(** ** [UnivariateVariationalDistribution] *)

Module UnivariateVariationalDistribution.

Record t : Type := mk {
  _num_qubits : nat;
  _var_form : VariationalForm;
  params : list Q;
  _initial_distribution : option InitialState;
  _probabilities : list Q;
  _low : Q;
  _high : Q
}.

(** Modelled from the spec: the constructor of the parent class
    [UnivariateDistribution] is not among the sources; by the data model
    (probabilities "initialized to all zeros", [low]/[high] bounds) it
    stores the probabilities and the bounds it is given. *)
Definition UnivariateDistribution__init__ (self : t)
    (probabilities : list Q) (low high : Q) : t :=
  mk (_num_qubits self) (_var_form self) (params self)
     (_initial_distribution self) probabilities low high.

(** [__init__(self, num_qubits, var_form, params,
              initial_distribution=None, low=0, high=1)].  The four
    attributes assigned before the parent's constructor runs are set
    first; the attributes the parent assigns hold placeholders until
    then. *)
Definition __init__ (num_qubits : nat) (var_form : VariationalForm)
    (params : list Q) (initial_distribution : option InitialState)
    (low high : Q) : t :=
  let self := mk num_qubits var_form params initial_distribution [] 0 0 in
  let probabilities := np_zeros (2 ^ num_qubits) in
  UnivariateDistribution__init__ self probabilities low high.

(** [qc.extend(rhs)] on the circuit that [build] was handed: the circuit is
    extended in place, or the framework raises and it stays as it is. *)
Definition qc_extend (fw : Framework) (rhs : Circuit) : M Circuit unit :=
  fun qc =>
    match extend fw qc rhs with
    | Ok qc' => (qc', Ok tt)
    | Raise e => (qc, Raise e)
    end.

(** [build(self, qc, q, q_ancillas=None, params=None)].  The state is the
    circuit [qc].  An [initial_distribution] object is true, [None] is
    false.  The argument [params] does not occur in the body. *)
Definition build (fw : Framework) (self : t) (q : Register)
    (q_ancillas : option Register) (params : option (list Q))
  : M Circuit unit :=
  (_ <- match _initial_distribution self with
        | Some initial_distribution =>
            c <- call (is_construct_circuit initial_distribution
                         "circuit" q) ;;
            qc_extend fw c
        | None => mret tt
        end ;;
   circuit_var_form <-
     call (vf_construct_circuit (_var_form self)
             (UnivariateVariationalDistribution.params self) q) ;;
   qc_extend fw circuit_var_form)%py.

(** [self] with its [_probabilities] attribute overwritten. *)
Definition with_probabilities (self : t) (probabilities : list Q) : t :=
  mk (_num_qubits self) (_var_form self) (params self)
     (_initial_distribution self) probabilities (_low self) (_high self).

(** [self._probabilities = np.array(probabilities)]. *)
Definition set__probabilities (probabilities : list Q) : M t unit :=
  fun self => (with_probabilities self probabilities, Ok tt).

(** [set_probabilities(self, quantum_instance)].  The state is [self]. *)
Definition set_probabilities (fw : Framework)
    (quantum_instance : QuantumInstance) : M t unit :=
  (self <- mget ;;
   q_ <- call (QuantumRegister fw (_num_qubits self) "q") ;;
   qc_ <- match _initial_distribution self with
          | Some initial_distribution =>
              call (is_construct_circuit initial_distribution "circuit" q_)
          | None => mret (QuantumCircuit q_)
          end ;;
   circuit_var_form <-
     call (vf_construct_circuit (_var_form self) (params self) q_) ;;
   qc_ <- call (extend fw qc_ circuit_var_form) ;;
   qc_ <-
     (if is_statevector quantum_instance then mret qc_
      else
        c_ <- call (ClassicalRegister fw (_num_qubits self) "c") ;;
        qc_ <- call (add_register fw qc_ c_) ;;
        call (measure fw qc_ q_ c_)) ;;
   result <- call (execute quantum_instance qc_) ;;
   values <-
     (if is_statevector quantum_instance then
        result <- call (get_statevector result qc_) ;;
        let values := np_multiply result (np_conj result) in
        mret (real values)
      else
        result <- call (get_counts result qc_) ;;
        let keys := map fst result in
        let values := map snd result in
        let values :=
          map (fun v => (float v / float (np_sum values))%Q) values in
        mret (map snd (sorted (zip keys values)))) ;;
   let probabilities := values in
   set__probabilities probabilities)%py.

End UnivariateVariationalDistribution.

(** ** Vocabulary of the statements *)

Module UVD := UnivariateVariationalDistribution.

(** The register [set_probabilities] allocates. *)
Definition q_of (self : UVD.t) : Register :=
  mkRegister (UVD._num_qubits self) "q".

(** The circuit [set_probabilities] starts from: the one the initial
    distribution constructs, or the empty circuit on the register. *)
Definition initial_circuit (self : UVD.t) : result Circuit :=
  match UVD._initial_distribution self with
  | Some initial_distribution =>
      is_construct_circuit initial_distribution "circuit" (q_of self)
  | None => Ok (QuantumCircuit (q_of self))
  end.

(** The circuit of the variational form on that register. *)
Definition var_form_circuit (self : UVD.t) : result Circuit :=
  vf_construct_circuit (UVD._var_form self) (UVD.params self) (q_of self).

(** The calls up to [qc_ += circuit_var_form] all return: the framework
    creates the register, the collaborators construct [qc0] and [vfc], and
    the framework extends [qc0] by [vfc] to [qc]. *)
Definition assembles (fw : Framework) (self : UVD.t) (qc0 vfc qc : Circuit)
  : Prop :=
  QuantumRegister fw (UVD._num_qubits self) "q" = Ok (q_of self) /\
  initial_circuit self = Ok qc0 /\
  var_form_circuit self = Ok vfc /\
  extend fw qc0 vfc = Ok qc.

(** The three calls of sampling mode on the assembled circuit: a classical
    register ["c"] of the same size is created and added, and every qubit
    is measured into it. *)
Definition measured (fw : Framework) (self : UVD.t) (qc : Circuit)
  : result Circuit :=
  (c_ <-? ClassicalRegister fw (UVD._num_qubits self) "c" ;;
   qc' <-? add_register fw qc c_ ;;
   measure fw qc' (q_of self) c_)%py.

(** The instruction is a measurement. *)
Definition is_measure (i : Instruction) : bool :=
  match i with
  | Measure _ _ => true
  | Gate _ _ _ => false
  end.

(** The measurements [set_probabilities] appends in sampling mode. *)
Definition measurements (n : nat) : list Instruction :=
  map (fun i => Measure ("q", i) ("c", i)) (seq 0 n).

(** The squared magnitude of an amplitude, and the sum of a vector. *)
Definition norm2 (z : complex) : Q := (z.1 * z.1 + z.2 * z.2)%Q.
Definition Qsum (l : list Q) : Q := fold_right Qplus 0%Q l.

(** The total of the counts, as a number (not as [int64]). *)
Definition total (counts : list (string * Z)) : Z :=
  fold_right Z.add 0%Z (map snd counts).

(** Counts of a run that [np.sum] adds up without wrapping: none is
    negative, and there is at least one shot and fewer than [2^63]. *)
Definition shot_counts (counts : list (string * Z)) : Prop :=
  Forall (fun kv => (0 <= kv.2)%Z) counts /\
  (0 < total counts < 2 ^ 63)%Z.

(** The counts divided by what [np.sum] makes of them, key by key, in the
    order of the mapping. *)
Definition normalized (counts : list (string * Z)) : list (string * Q) :=
  map (fun kv => (kv.1, (float kv.2 / float (np_sum (map snd counts)))%Q))
      counts.

(** The counts divided by their total. *)
Definition frequencies (counts : list (string * Z)) : list (string * Q) :=
  map (fun kv => (kv.1, (float kv.2 / float (total counts))%Q)) counts.

(** Ascending order of the keys. *)
Definition key_lt (a b : string * Q) : Prop :=
  Stdlib.Strings.String.ltb a.1 b.1 = true.

(** The calls of [set_probabilities] that can raise, in the order they
    are made, each reached when the calls before it returned: the creation
    of the register, the two circuit constructions, the extension, the
    three calls that add the measurement, the execution, and the reading of
    the result. *)
Inductive call_raises (fw : Framework) (self : UVD.t) (qi : QuantumInstance)
    (e : exception) : Prop :=
| raises_QuantumRegister :
    QuantumRegister fw (UVD._num_qubits self) "q" = Raise e ->
    call_raises fw self qi e
| raises_initial_circuit :
    QuantumRegister fw (UVD._num_qubits self) "q" = Ok (q_of self) ->
    initial_circuit self = Raise e ->
    call_raises fw self qi e
| raises_var_form (qc0 : Circuit) :
    QuantumRegister fw (UVD._num_qubits self) "q" = Ok (q_of self) ->
    initial_circuit self = Ok qc0 ->
    var_form_circuit self = Raise e ->
    call_raises fw self qi e
| raises_extend (qc0 vfc : Circuit) :
    QuantumRegister fw (UVD._num_qubits self) "q" = Ok (q_of self) ->
    initial_circuit self = Ok qc0 ->
    var_form_circuit self = Ok vfc ->
    extend fw qc0 vfc = Raise e ->
    call_raises fw self qi e
| raises_measured (qc0 vfc qc1 : Circuit) :
    assembles fw self qc0 vfc qc1 ->
    is_statevector qi = false ->
    measured fw self qc1 = Raise e ->
    call_raises fw self qi e
| raises_execute_exact (qc0 vfc qc : Circuit) :
    assembles fw self qc0 vfc qc ->
    is_statevector qi = true ->
    execute qi qc = Raise e ->
    call_raises fw self qi e
| raises_execute_sampling (qc0 vfc qc1 qc : Circuit) :
    assembles fw self qc0 vfc qc1 ->
    is_statevector qi = false ->
    measured fw self qc1 = Ok qc ->
    execute qi qc = Raise e ->
    call_raises fw self qi e
| raises_get_statevector (qc0 vfc qc : Circuit) (res : Result) :
    assembles fw self qc0 vfc qc ->
    is_statevector qi = true ->
    execute qi qc = Ok res ->
    get_statevector res qc = Raise e ->
    call_raises fw self qi e
| raises_get_counts (qc0 vfc qc1 qc : Circuit) (res : Result) :
    assembles fw self qc0 vfc qc1 ->
    is_statevector qi = false ->
    measured fw self qc1 = Ok qc ->
    execute qi qc = Ok res ->
    get_counts res qc = Raise e ->
    call_raises fw self qi e.

(** The calls of [build] that can raise, with the circuit each leaves:
    the two circuit constructions and the two extensions. *)
Inductive build_raises (fw : Framework) (self : UVD.t) (q : Register)
    (qc : Circuit) (e : exception) : Circuit -> Prop :=
| build_raises_initial (initial_distribution : InitialState) :
    UVD._initial_distribution self = Some initial_distribution ->
    is_construct_circuit initial_distribution "circuit" q = Raise e ->
    build_raises fw self q qc e qc
| build_raises_extend_initial (initial_distribution : InitialState)
    (ic : Circuit) :
    UVD._initial_distribution self = Some initial_distribution ->
    is_construct_circuit initial_distribution "circuit" q = Ok ic ->
    extend fw qc ic = Raise e ->
    build_raises fw self q qc e qc
| build_raises_var_form_after (initial_distribution : InitialState)
    (ic qc1 : Circuit) :
    UVD._initial_distribution self = Some initial_distribution ->
    is_construct_circuit initial_distribution "circuit" q = Ok ic ->
    extend fw qc ic = Ok qc1 ->
    vf_construct_circuit (UVD._var_form self) (UVD.params self) q = Raise e ->
    build_raises fw self q qc e qc1
| build_raises_extend_after (initial_distribution : InitialState)
    (ic qc1 vfc : Circuit) :
    UVD._initial_distribution self = Some initial_distribution ->
    is_construct_circuit initial_distribution "circuit" q = Ok ic ->
    extend fw qc ic = Ok qc1 ->
    vf_construct_circuit (UVD._var_form self) (UVD.params self) q = Ok vfc ->
    extend fw qc1 vfc = Raise e ->
    build_raises fw self q qc e qc1
| build_raises_var_form :
    UVD._initial_distribution self = None ->
    vf_construct_circuit (UVD._var_form self) (UVD.params self) q = Raise e ->
    build_raises fw self q qc e qc
| build_raises_extend (vfc : Circuit) :
    UVD._initial_distribution self = None ->
    vf_construct_circuit (UVD._var_form self) (UVD.params self) q = Ok vfc ->
    extend fw qc vfc = Raise e ->
    build_raises fw self q qc e qc.

(** A numpy array of more than one element: the values whose truth value
    is not defined. *)
Definition is_large_array (v : value) : bool :=
  match v with
  | VNdarray _ (_ :: _ :: _) => true
  | _ => false
  end.

(** The [n]-character binary numeral of [i], most significant bit first:
    the key under which a backend reports the basis state of index [i]. *)
Fixpoint bitstring (n i : nat) : string :=
  match n with
  | O => ""
  | S n' =>
      if (i <? 2 ^ n')%nat then String "0"%char (bitstring n' i)
      else String "1"%char (bitstring n' (i - 2 ^ n'))
  end.

(** A counts mapping that reports every basis state of [n] qubits, state
    [i] with count [c i], filled in the order of the indices. *)
Definition complete_counts (n : nat) (c : nat -> Z) : list (string * Z) :=
  map (fun i => (bitstring n i, c i)) (seq 0 (2 ^ n)).

(** A string of [n] characters, each ["0"] or ["1"]. *)
Fixpoint is_bitstring (n : nat) (s : string) : bool :=
  match n, s with
  | O, EmptyString => true
  | S n', String ch s' =>
      (Ascii.eqb ch "0" || Ascii.eqb ch "1") && is_bitstring n' s'
  | _, _ => false
  end.

(** The number a binary numeral of [n] characters writes. *)
Fixpoint bits_value (n : nat) (s : string) : nat :=
  match n, s with
  | S n', String ch s' =>
      (if Ascii.eqb ch "1" then 2 ^ n' else 0) + bits_value n' s'
  | _, _ => 0
  end.

(** The counts of [k] times as many shots with the same proportions. *)
Definition scale_counts (k : Z) (counts : list (string * Z))
  : list (string * Z) :=
  map (fun kv => (kv.1, (k * kv.2)%Z)) counts.

(** Two tuples with the same key and equal numbers. *)
Definition same_entry (a b : string * Q) : Prop :=
  a.1 = b.1 /\ (a.2 == b.2)%Q.

(** ** Collaborators and a framework for the examples *)

(** The checks of the framework on the circuits of the examples: two
    circuits are extended when their registers of the same name are the
    same register, a register is added when its name is new, and a
    register is measured when it belongs to the circuit.  The registers of
    the examples have a positive size and are accepted. *)
Definition tagged_registers (qc : Circuit) : list (bool * Register) :=
  map (pair true) (qregs qc) ++ map (pair false) (cregs qc).

Definition compatible (qc rhs : Circuit) : bool :=
  forallb
    (fun r1 : bool * Register =>
       forallb
         (fun r2 : bool * Register =>
            if Stdlib.Strings.String.eqb (reg_name r2.2) (reg_name r1.2)
            then bool_decide (r1 = r2) else true)
         (tagged_registers rhs))
    (tagged_registers qc).

Definition has_name (qc : Circuit) (name : string) : bool :=
  existsb (fun r : bool * Register =>
             Stdlib.Strings.String.eqb (reg_name r.2) name)
          (tagged_registers qc).

Definition qiskit_checks : Framework :=
  mkFramework
    (fun _ _ => None)
    (fun _ _ => None)
    (fun qc rhs =>
       if compatible qc rhs then None
       else Some (CircuitError "circuits are not compatible"))
    (fun qc r =>
       if has_name qc (reg_name r)
       then Some (CircuitError "register name already exists")
       else None)
    (fun qc q c =>
       if bool_decide (q ∈ qregs qc) && bool_decide (c ∈ cregs qc) then None
       else Some (CircuitError "register not in this circuit")).

(** A variational form of one rotation, an initial state, backends that
    answer with a fixed statevector or fixed counts, and a backend that
    fails. *)
Definition ry_form : VariationalForm :=
  mkVariationalForm
    (fun angles q => Ok (mkCircuit [q] [] [Gate "ry" angles [(reg_name q, 0%nat)]])).

Definition zero_state : InitialState :=
  mkInitialState (fun _ q => Ok (mkCircuit [q] [] [Gate "reset" [] [(reg_name q, 0%nat)]])).

Definition statevector_backend (sv : list complex) : QuantumInstance :=
  mkQuantumInstance true
    (fun _ => Ok (mkResult (fun _ => Ok sv)
                           (fun _ => Raise (ExternalError "no counts")))).

Definition counts_backend (counts : list (string * Z)) : QuantumInstance :=
  mkQuantumInstance false
    (fun _ => Ok (mkResult (fun _ => Raise (ExternalError "no statevector"))
                           (fun _ => Ok counts))).


Definition one_qubit : UVD.t := UVD.__init__ 1 ry_form [1%Q] None 0 1.
Definition one_qubit_prepared : UVD.t :=
  UVD.__init__ 1 ry_form [1%Q] (Some zero_state) 0 1.

(** A variational form whose circuit construction fails, and a
    distribution that uses it after an initial state. *)
Definition failing_form : VariationalForm :=
  mkVariationalForm (fun _ _ => Raise (ExternalError "wrong number of parameters")).

Definition one_qubit_failing : UVD.t :=
  UVD.__init__ 1 failing_form [] (Some zero_state) 0 1.

(** A variational form that works on an ancilla qubit of its own, and a
    simulator that answers with the basis state of all the qubits of the
    circuit it is given: [2^k] amplitudes for [k] qubits. *)
Definition ancilla_form : VariationalForm :=
  mkVariationalForm
    (fun angles q =>
       Ok (mkCircuit [q; mkRegister 1 "a"] []
                     [Gate "cry" angles [("a", 0%nat); (reg_name q, 0%nat)]])).

Definition num_circuit_qubits (qc : Circuit) : nat :=
  fold_right Nat.add 0%nat (map reg_size (qregs qc)).

Definition simulator : QuantumInstance :=
  mkQuantumInstance true
    (fun _ =>
       Ok (mkResult
             (fun qc => Ok ((1, 0)%Q ::
                            repeat (0, 0)%Q (2 ^ num_circuit_qubits qc - 1)))
             (fun _ => Raise (ExternalError "no counts")))).

Definition one_qubit_ancilla : UVD.t :=
  UVD.__init__ 1 ancilla_form [1%Q] None 0 1.



(** * Properties of [SVMInput] *)

Section SVMInput_facts.
Import SVMInput.

(** Unfolding the error monad on a known first result. *)
Lemma rbind_Ok {A B} (r : result A) (k : A -> result B) (b : B) :
  rbind r k = Ok b -> exists a, r = Ok a /\ k a = Ok b.
Proof. destruct r as [a|e]; simpl; [eauto | discriminate]. Qed.

Lemma truth_raises_ValueError (v : value) (e : exception) :
  truth v = Raise e -> exists msg, e = ValueError msg.
Proof.
  destruct v as [| | | | | | |shape data]; simpl; try discriminate.
  destruct data as [|x [|y data]]; try discriminate.
  intros [= <-]. eauto.
Qed.

Lemma py_or_raises_ValueError (x y : value) (e : exception) :
  py_or x y = Raise e -> exists msg, e = ValueError msg.
Proof.
  unfold py_or. destruct (truth x) as [b|e'] eqn:Hx; simpl.
  - discriminate.
  - intros [= <-]. eauto using truth_raises_ValueError.
Qed.

(** [x or y] is [x] when [x] is true and [y] when [x] is false. *)
Lemma py_or_true (x y : value) : truth x = Ok true -> py_or x y = Ok x.
Proof. unfold py_or. now intros ->. Qed.

Lemma py_or_false (x y : value) : truth x = Ok false -> py_or x y = Ok y.
Proof. unfold py_or. now intros ->. Qed.

(** Defaulting twice with a false default is defaulting once. *)
Lemma py_or_idem (x y v : value) :
  truth y = Ok false -> py_or x y = Ok v -> py_or v y = Ok v.
Proof.
  intros Hy. unfold py_or at 1.
  destruct (truth x) as [[|]|e] eqn:Hx; simpl; try discriminate.
  - intros [= <-]. now apply py_or_true.
  - intros [= <-]. now apply py_or_false.
Qed.

Lemma init_raises_ValueError (tr te dp : value) (e : exception) :
  __init__ tr te dp = Raise e -> exists msg, e = ValueError msg.
Proof.
  unfold __init__.
  destruct (py_or te (VDict [])) as [te'|e1] eqn:Hte; simpl.
  - destruct (py_or dp np_asarray_empty) as [dp'|e2] eqn:Hdp; simpl.
    + discriminate.
    + intros [= <-]. eauto using py_or_raises_ValueError.
  - intros [= <-]. eauto using py_or_raises_ValueError.
Qed.

Lemma init_fields (tr te dp : value) (self : t) :
  __init__ tr te dp = Ok self ->
  training_dataset self = tr /\
  py_or te (VDict []) = Ok (test_dataset self) /\
  py_or dp np_asarray_empty = Ok (datapoints self).
Proof.
  unfold __init__. intros H.
  apply rbind_Ok in H as (te' & Hte & H).
  apply rbind_Ok in H as (dp' & Hdp & H).
  injection H as <-. simpl. auto.
Qed.

(** The three lookups in what [to_params] returns. *)
Lemma to_params_lookup (self : t) :
  to_params self !! "training_dataset" = Some (training_dataset self) /\
  to_params self !! "test_dataset" = Some (test_dataset self) /\
  to_params self !! "datapoints" = Some (datapoints self).
Proof.
  unfold to_params. split; [|split]; by simplify_map_eq.
Qed.

(** [from_params] on a mapping that has the three keys is the primary
    constructor on the three values. *)
Lemma from_params_present (params : gmap string value) (tr te dp : value) :
  params !! "training_dataset" = Some tr ->
  params !! "test_dataset" = Some te ->
  params !! "datapoints" = Some dp ->
  from_params params = __init__ tr te dp.
Proof.
  intros Htr Hte Hdp. unfold from_params, contains, getitem.
  rewrite Htr, Hte, Hdp. reflexivity.
Qed.

End SVMInput_facts.

(** C5.  For every instance built by the primary constructor,
    [from_params (to_params instance)] succeeds, and the instance it yields
    has the same [training_dataset], [test_dataset] and [datapoints] as the
    original. *)
Theorem from_params_to_params_roundtrip (tr te dp : value) (self : SVMInput.t) :
  SVMInput.__init__ tr te dp = Ok self ->
  exists self' : SVMInput.t,
    SVMInput.from_params (SVMInput.to_params self) = Ok self' /\
    SVMInput.training_dataset self' = SVMInput.training_dataset self /\
    SVMInput.test_dataset self' = SVMInput.test_dataset self /\
    SVMInput.datapoints self' = SVMInput.datapoints self.
Proof.
  intros Hinit. exists self.
  destruct (init_fields _ _ _ _ Hinit) as (_ & Hte & Hdp).
  destruct (to_params_lookup self) as (Ltr & Lte & Ldp).
  rewrite (from_params_present _ _ _ _ Ltr Lte Ldp).
  unfold SVMInput.__init__.
  rewrite (py_or_idem te (VDict []) _ eq_refl Hte).
  rewrite (py_or_idem dp np_asarray_empty _ eq_refl Hdp).
  destruct self; simpl; auto.
Qed.

(** The round trip on an instance with a defaulted [test_dataset] and a
    list of two data points. *)
Lemma from_params_to_params_roundtrip_witness :
  exists self' : SVMInput.t,
    SVMInput.from_params
      (SVMInput.to_params
         (SVMInput.mk (VDict [("x", VInt 1)]) (VDict [])
                      (VList [VFloat (1 # 2); VFloat (3 # 2)]))) = Ok self' /\
    SVMInput.training_dataset self' = VDict [("x", VInt 1)] /\
    SVMInput.test_dataset self' = VDict [] /\
    SVMInput.datapoints self' = VList [VFloat (1 # 2); VFloat (3 # 2)].
Proof.
  apply (from_params_to_params_roundtrip
           (VDict [("x", VInt 1)]) VNone
           (VList [VFloat (1 # 2); VFloat (3 # 2)])).
  reflexivity.
Defined.

(** C6.  [from_params] raises [AlgorithmError] if and only if the key
    ["training_dataset"] is absent from the mapping; in particular
    [from_params({"test_dataset": {}, "datapoints": []})] raises it. *)
Theorem from_params_AlgorithmError_iff_missing :
  (forall params : gmap string value,
     (exists msg, SVMInput.from_params params = Raise (AlgorithmError msg)) <->
     params !! "training_dataset" = None) /\
  SVMInput.from_params
    (<["datapoints" := VList []]> (<["test_dataset" := VDict []]> ∅)) =
  Raise (AlgorithmError "training_dataset is required.").
Proof.
  split; [|reflexivity].
  intros params. unfold SVMInput.from_params, contains, getitem.
  destruct (params !! "training_dataset") as [tr|] eqn:Htr; simpl.
  - split; [|discriminate]. intros [msg H]. exfalso.
    destruct (params !! "test_dataset") as [te|]; simpl in H; [|discriminate].
    destruct (params !! "datapoints") as [dp|]; simpl in H; [|discriminate].
    apply init_raises_ValueError in H as [msg' H]. discriminate.
  - split; eauto.
Qed.

(** C7.  The primary constructor stores [training_dataset] as given, and
    it defaults each of the two other arguments on its own: a false
    [test_dataset] (an omitted one is [None]) is stored as the empty dict
    whatever [datapoints] is, a false [datapoints] as the empty array
    whatever [test_dataset] is, and a true argument is stored as it is.
    With only [training_dataset={"x": 1}] given, [test_dataset] is [{}] and
    [datapoints] is empty. *)
Theorem init_defaults (tr te dp : value) (bt bd : bool) :
  truth te = Ok bt ->
  truth dp = Ok bd ->
  SVMInput.__init__ tr te dp =
    Ok (SVMInput.mk tr (if bt then te else VDict [])
                       (if bd then dp else np_asarray_empty)) /\
  SVMInput.__init__ (VDict [("x", VInt 1)]) VNone VNone =
    Ok (SVMInput.mk (VDict [("x", VInt 1)]) (VDict []) (VNdarray [0%nat] [])).
Proof.
  intros Hte Hdp. split; [|reflexivity].
  unfold SVMInput.__init__, py_or. rewrite Hte, Hdp. reflexivity.
Qed.

(** An omitted [test_dataset] with data points given, and both false. *)
Lemma init_defaults_witness :
  (SVMInput.__init__ (VInt 7) VNone (VList [VFloat 1]) =
     Ok (SVMInput.mk (VInt 7) (VDict []) (VList [VFloat 1])) /\
   SVMInput.__init__ (VInt 7) (VDict []) (VList []) =
     Ok (SVMInput.mk (VInt 7) (VDict []) np_asarray_empty)) /\
  SVMInput.__init__ (VDict [("x", VInt 1)]) VNone VNone =
    Ok (SVMInput.mk (VDict [("x", VInt 1)]) (VDict []) (VNdarray [0%nat] [])).
Proof.
  split; [split|].
  - apply (init_defaults (VInt 7) VNone (VList [VFloat 1]) false true);
      reflexivity.
  - apply (init_defaults (VInt 7) (VDict []) (VList []) false false);
      reflexivity.
  - apply (init_defaults (VInt 7) VNone VNone false false); reflexivity.
Defined.

(** C8, as stated, fails: with [None] under both optional keys the instance
    holds the constructor's defaults, not the mapping's values. *)
Lemma from_params_stores_mapping_values_counterexample :
  ~ (forall (params : gmap string value) (self : SVMInput.t),
       is_Some (params !! "training_dataset") ->
       SVMInput.from_params params = Ok self ->
       params !! "test_dataset" = Some (SVMInput.test_dataset self) /\
       params !! "datapoints" = Some (SVMInput.datapoints self)).
Proof.
  intros H.
  destruct (H (<["datapoints" := VNone]>
                (<["test_dataset" := VNone]>
                  (<["training_dataset" := VDict [("x", VInt 1)]]> ∅)))
              (SVMInput.mk (VDict [("x", VInt 1)]) (VDict []) np_asarray_empty))
    as [Hte _].
  - eexists. reflexivity.
  - reflexivity.
  - vm_compute in Hte. discriminate.
Qed.

(** C8, amended.  On a mapping that has ["training_dataset"],
    [from_params] looks the two other keys up directly: a missing key raises
    [KeyError], nothing is substituted for it.  The values found are handed
    to the primary constructor, so a true value is stored as it is in the
    mapping, and a false one is replaced by the constructor's default. *)
Theorem from_params_reads_then_constructs :
  forall (params : gmap string value) (tr : value),
    params !! "training_dataset" = Some tr ->
    (params !! "test_dataset" = None ->
     SVMInput.from_params params = Raise (KeyError "test_dataset")) /\
    (is_Some (params !! "test_dataset") ->
     params !! "datapoints" = None ->
     SVMInput.from_params params = Raise (KeyError "datapoints")) /\
    (forall te dp : value,
       params !! "test_dataset" = Some te ->
       params !! "datapoints" = Some dp ->
       SVMInput.from_params params = SVMInput.__init__ tr te dp /\
       (truth te = Ok true -> truth dp = Ok true ->
        SVMInput.from_params params = Ok (SVMInput.mk tr te dp)) /\
       (truth te = Ok false -> truth dp = Ok false ->
        SVMInput.from_params params =
          Ok (SVMInput.mk tr (VDict []) np_asarray_empty))).
Proof.
  intros params tr Htr. split; [|split].
  - intros Hte. unfold SVMInput.from_params, contains, getitem.
    now rewrite Htr, Hte.
  - intros [te Hte] Hdp. unfold SVMInput.from_params, contains, getitem.
    now rewrite Htr, Hte, Hdp.
  - intros te dp Hte Hdp.
    rewrite (from_params_present _ _ _ _ Htr Hte Hdp).
    split; [reflexivity|]. unfold SVMInput.__init__. split; intros Ht Hd.
    + now rewrite (py_or_true _ _ Ht), (py_or_true _ _ Hd).
    + now rewrite (py_or_false _ _ Ht), (py_or_false _ _ Hd).
Qed.

(** The amended C8 on the mapping of the counterexample. *)
Lemma from_params_reads_then_constructs_witness :
  SVMInput.from_params
    (<["datapoints" := VNone]>
      (<["test_dataset" := VNone]>
        (<["training_dataset" := VDict [("x", VInt 1)]]> ∅))) =
  Ok (SVMInput.mk (VDict [("x", VInt 1)]) (VDict []) np_asarray_empty).
Proof.
  pose proof (from_params_reads_then_constructs
         (<["datapoints" := VNone]>
           (<["test_dataset" := VNone]>
             (<["training_dataset" := VDict [("x", VInt 1)]]> ∅)))
         (VDict [("x", VInt 1)]) eq_refl) as (_ & _ & H).
  destruct (H VNone VNone eq_refl eq_refl) as (_ & _ & Hfalse).
  exact (Hfalse eq_refl eq_refl).
Defined.

(** C10.  Whenever [datapoints] is a numpy array with more than one
    element, the primary constructor raises [ValueError]: the default is
    chosen with [or], which asks the array for its truth value. *)
Theorem init_ndarray_datapoints_raises
    (tr te : value) (shape : list nat) (data : list Q) :
  (1 < length data)%nat ->
  exists msg, SVMInput.__init__ tr te (VNdarray shape data) = Raise (ValueError msg).
Proof.
  intros Hlen. unfold SVMInput.__init__.
  destruct (py_or te (VDict [])) as [te'|e] eqn:Hte; simpl.
  - destruct data as [|x [|y data]]; simpl in Hlen; try lia.
    eexists. reflexivity.
  - apply py_or_raises_ValueError in Hte as [msg ->]. eauto.
Qed.

(** Two feature vectors of two features each. *)
Lemma init_ndarray_datapoints_raises_witness :
  exists msg,
    SVMInput.__init__ (VDict [("A", VList [])]) VNone
      (VNdarray [2%nat; 2%nat] [1; 2; 3; 4]%Q) = Raise (ValueError msg).
Proof.
  apply (init_ndarray_datapoints_raises
           (VDict [("A", VList [])]) VNone [2%nat; 2%nat] [1; 2; 3; 4]%Q).
  simpl. lia.
Defined.


(** * Properties of [UnivariateVariationalDistribution] *)

Section set_probabilities_facts.

(** Pairing the keys with the rescaled values is rescaling pair by pair. *)
Lemma zip_keys_values (f : Z -> Q) (counts : list (string * Z)) :
  zip (map fst counts) (map f (map snd counts)) =
  map (fun kv => (kv.1, f kv.2)) counts.
Proof.
  induction counts as [|[k v] counts IH]; simpl; [reflexivity|].
  now rewrite IH.
Qed.

(** The register the framework creates is the register of the statements. *)
Lemma QuantumRegister_Ok (fw : Framework) (n : nat) (name : string)
    (q : Register) :
  QuantumRegister fw n name = Ok q -> q = mkRegister n name.
Proof.
  unfold QuantumRegister, checked.
  destruct (qreg_error fw n name); [discriminate|]. now intros [= <-].
Qed.

(** What the framework's operations return when they return. *)
Lemma extend_Ok (fw : Framework) (qc rhs qc' : Circuit) :
  extend fw qc rhs = Ok qc' -> qc' = extended qc rhs.
Proof.
  unfold extend, checked.
  destruct (extend_error fw qc rhs); [discriminate|]. now intros [= <-].
Qed.

Lemma measured_Ok (fw : Framework) (self : UVD.t) (qc qc' : Circuit) :
  measured fw self qc = Ok qc' ->
  qc' = measured_into
          (with_register qc (mkRegister (UVD._num_qubits self) "c"))
          (q_of self) (mkRegister (UVD._num_qubits self) "c").
Proof.
  unfold measured, ClassicalRegister, add_register, measure, checked.
  destruct (creg_error fw _ _); simpl; [discriminate|].
  destruct (add_register_error fw _ _); simpl; [discriminate|].
  destruct (measure_error fw _ _ _); [discriminate|]. now intros [= <-].
Qed.

Lemma measured_data (fw : Framework) (self : UVD.t) (qc qc' : Circuit) :
  measured fw self qc = Ok qc' ->
  data qc' = data qc ++ measurements (UVD._num_qubits self) /\
  qregs qc' = qregs qc /\
  cregs qc' = cregs qc ++ [mkRegister (UVD._num_qubits self) "c"].
Proof. intros H. apply measured_Ok in H as ->. repeat split. Qed.

(** [set_probabilities], call by call: each call either raises, and then
    [self] is as it was, or returns, and then the next is made; the
    attribute is written once, at the end. *)
Lemma set_probabilities_unfold (fw : Framework) (qi : QuantumInstance)
    (self : UVD.t) :
  UVD.set_probabilities fw qi self =
  match QuantumRegister fw (UVD._num_qubits self) "q" with
  | Raise e => (self, Raise e)
  | Ok _ =>
  match initial_circuit self with
  | Raise e => (self, Raise e)
  | Ok qc0 =>
  match var_form_circuit self with
  | Raise e => (self, Raise e)
  | Ok vfc =>
  match extend fw qc0 vfc with
  | Raise e => (self, Raise e)
  | Ok qc1 =>
      if is_statevector qi then
        match execute qi qc1 with
        | Raise e => (self, Raise e)
        | Ok res =>
            match get_statevector res qc1 with
            | Raise e => (self, Raise e)
            | Ok sv =>
                (UVD.with_probabilities self
                   (real (np_multiply sv (np_conj sv))), Ok tt)
            end
        end
      else
        match measured fw self qc1 with
        | Raise e => (self, Raise e)
        | Ok qc =>
            match execute qi qc with
            | Raise e => (self, Raise e)
            | Ok res =>
                match get_counts res qc with
                | Raise e => (self, Raise e)
                | Ok counts =>
                    (UVD.with_probabilities self
                       (map snd (sorted (normalized counts))), Ok tt)
                end
            end
        end
  end end end end.
Proof.
  unfold UVD.set_probabilities, initial_circuit, var_form_circuit, measured,
    q_of, mbind, mget, mret, call, UVD.set__probabilities,
    QuantumRegister, ClassicalRegister, extend, add_register, measure,
    checked, rbind.
  destruct (qreg_error fw _ _); [reflexivity|].
  destruct (UVD._initial_distribution self) as [ini|];
    [destruct (is_construct_circuit ini _ _) as [qc0|e]; [|reflexivity]|];
    (destruct (vf_construct_circuit _ _ _) as [vfc|e]; [|reflexivity]);
    (destruct (extend_error fw _ vfc); [reflexivity|]);
    (destruct (is_statevector qi);
     [ destruct (execute qi _) as [res|e]; [|reflexivity];
       destruct (get_statevector res _) as [sv|e]; reflexivity
     | destruct (creg_error fw _ _); [reflexivity|];
       destruct (add_register_error fw _ _); [reflexivity|];
       destruct (measure_error fw _ _ _); [reflexivity|];
       destruct (execute qi _) as [res|e]; [|reflexivity];
       destruct (get_counts res _) as [counts|e]; [|reflexivity];
       unfold normalized; now rewrite zip_keys_values ]).
Qed.

End set_probabilities_facts.

Section set_probabilities_runs.

(** A run in exact mode that every call answers. *)
Lemma set_probabilities_exact_run (fw : Framework) (qi : QuantumInstance)
    (self : UVD.t) (qc0 vfc qc : Circuit) (res : Result) (sv : list complex) :
  is_statevector qi = true ->
  assembles fw self qc0 vfc qc ->
  execute qi qc = Ok res ->
  get_statevector res qc = Ok sv ->
  UVD.set_probabilities fw qi self =
    (UVD.with_probabilities self (real (np_multiply sv (np_conj sv))), Ok tt).
Proof.
  intros Hmode (Hq & H0 & H1 & He) H2 H3.
  rewrite set_probabilities_unfold. now rewrite Hq, H0, H1, He, Hmode, H2, H3.
Qed.

(** A run in sampling mode that every call answers. *)
Lemma set_probabilities_sampling_run (fw : Framework) (qi : QuantumInstance)
    (self : UVD.t) (qc0 vfc qc1 qc : Circuit) (res : Result)
    (counts : list (string * Z)) :
  is_statevector qi = false ->
  assembles fw self qc0 vfc qc1 ->
  measured fw self qc1 = Ok qc ->
  execute qi qc = Ok res ->
  get_counts res qc = Ok counts ->
  UVD.set_probabilities fw qi self =
    (UVD.with_probabilities self (map snd (sorted (normalized counts))),
     Ok tt).
Proof.
  intros Hmode (Hq & H0 & H1 & He) Hm H2 H3.
  rewrite set_probabilities_unfold.
  now rewrite Hq, H0, H1, He, Hmode, Hm, H2, H3.
Qed.

(** A call that raises leaves [self] as it was, and what it raises was
    raised by one of its calls. *)
Lemma set_probabilities_raise (fw : Framework) (qi : QuantumInstance)
    (self self' : UVD.t) (e : exception) :
  UVD.set_probabilities fw qi self = (self', Raise e) ->
  self' = self /\ call_raises fw self qi e.
Proof.
  rewrite set_probabilities_unfold.
  destruct (QuantumRegister fw _ _) as [q|eq] eqn:Hq.
  2:{ intros [= <- <-]. split; [reflexivity|].
      now apply raises_QuantumRegister. }
  apply QuantumRegister_Ok in Hq as Hq'. subst q. fold (q_of self) in Hq.
  destruct (initial_circuit self) as [qc0|e0] eqn:H0.
  2:{ intros [= <- <-]. split; [reflexivity|].
      now apply raises_initial_circuit. }
  destruct (var_form_circuit self) as [vfc|e1] eqn:H1.
  2:{ intros [= <- <-]. split; [reflexivity|].
      eapply raises_var_form; eauto. }
  destruct (extend fw qc0 vfc) as [qc1|e2] eqn:He.
  2:{ intros [= <- <-]. split; [reflexivity|].
      eapply raises_extend; eauto. }
  assert (Ha : assembles fw self qc0 vfc qc1) by (repeat split; assumption).
  destruct (is_statevector qi) eqn:Hsv.
  - destruct (execute qi qc1) as [res|e3] eqn:H2.
    2:{ intros [= <- <-]. split; [reflexivity|].
        eapply raises_execute_exact; eauto. }
    destruct (get_statevector res qc1) as [sv|e4] eqn:H3; [discriminate|].
    intros [= <- <-]. split; [reflexivity|].
    eapply raises_get_statevector; eauto.
  - destruct (measured fw self qc1) as [qc|e3] eqn:Hm.
    2:{ intros [= <- <-]. split; [reflexivity|].
        eapply raises_measured; eauto. }
    destruct (execute qi qc) as [res|e4] eqn:H2.
    2:{ intros [= <- <-]. split; [reflexivity|].
        eapply raises_execute_sampling; eauto. }
    destruct (get_counts res qc) as [counts|e5] eqn:H3; [discriminate|].
    intros [= <- <-]. split; [reflexivity|].
    eapply raises_get_counts; eauto.
Qed.


(** A call that returns was answered by every call it made. *)
Lemma set_probabilities_return (fw : Framework) (qi : QuantumInstance)
    (self self' : UVD.t) (u : unit) :
  UVD.set_probabilities fw qi self = (self', Ok u) ->
  exists qc0 vfc qc1 : Circuit,
    assembles fw self qc0 vfc qc1 /\
    if is_statevector qi then
      exists (res : Result) (sv : list complex),
        execute qi qc1 = Ok res /\
        get_statevector res qc1 = Ok sv /\
        self' = UVD.with_probabilities self
                  (real (np_multiply sv (np_conj sv)))
    else
      exists (qc : Circuit) (res : Result) (counts : list (string * Z)),
        measured fw self qc1 = Ok qc /\
        execute qi qc = Ok res /\
        get_counts res qc = Ok counts /\
        self' = UVD.with_probabilities self
                  (map snd (sorted (normalized counts))).
Proof.
  rewrite set_probabilities_unfold.
  destruct (QuantumRegister fw _ _) as [q|eq] eqn:Hq; [|discriminate].
  apply QuantumRegister_Ok in Hq as Hq'. subst q. fold (q_of self) in Hq.
  destruct (initial_circuit self) as [qc0|e0] eqn:H0; [|discriminate].
  destruct (var_form_circuit self) as [vfc|e1] eqn:H1; [|discriminate].
  destruct (extend fw qc0 vfc) as [qc1|e2] eqn:He; [|discriminate].
  intros H. exists qc0, vfc, qc1. split; [repeat split; assumption|].
  destruct (is_statevector qi).
  - destruct (execute qi qc1) as [res|e3] eqn:H2; [|discriminate].
    destruct (get_statevector res qc1) as [sv|e4] eqn:H3; [|discriminate].
    injection H as <-. exists res, sv. auto.
  - destruct (measured fw self qc1) as [qc|e3] eqn:Hm; [|discriminate].
    destruct (execute qi qc) as [res|e4] eqn:H2; [|discriminate].
    destruct (get_counts res qc) as [counts|e5] eqn:H3; [|discriminate].
    injection H as <-. exists qc, res, counts. auto.
Qed.

(** [build], call by call. *)
Lemma build_unfold (fw : Framework) (self : UVD.t) (q : Register)
    (q_ancillas : option Register) (params : option (list Q)) (qc : Circuit) :
  UVD.build fw self q q_ancillas params qc =
  match UVD._initial_distribution self with
  | Some initial_distribution =>
      match is_construct_circuit initial_distribution "circuit" q with
      | Raise e => (qc, Raise e)
      | Ok ic =>
          match extend fw qc ic with
          | Raise e => (qc, Raise e)
          | Ok qc1 =>
              match vf_construct_circuit (UVD._var_form self)
                      (UVD.params self) q with
              | Raise e => (qc1, Raise e)
              | Ok vfc =>
                  match extend fw qc1 vfc with
                  | Raise e => (qc1, Raise e)
                  | Ok qc2 => (qc2, Ok tt)
                  end
              end
          end
      end
  | None =>
      match vf_construct_circuit (UVD._var_form self) (UVD.params self) q with
      | Raise e => (qc, Raise e)
      | Ok vfc =>
          match extend fw qc vfc with
          | Raise e => (qc, Raise e)
          | Ok qc1 => (qc1, Ok tt)
          end
      end
  end.
Proof.
  unfold UVD.build, mbind, mret, call, UVD.qc_extend.
  destruct (UVD._initial_distribution self) as [ini|].
  - destruct (is_construct_circuit ini _ q) as [ic|e]; [|reflexivity].
    destruct (extend fw qc ic) as [qc1|e]; [|reflexivity].
    destruct (vf_construct_circuit _ _ q) as [vfc|e]; [|reflexivity].
    destruct (extend fw qc1 vfc) as [qc2|e]; reflexivity.
  - destruct (vf_construct_circuit _ _ q) as [vfc|e]; [|reflexivity].
    destruct (extend fw qc vfc) as [qc1|e]; reflexivity.
Qed.

End set_probabilities_runs.

(** ** Order of the keys and the sort *)

Section key_order.

Lemma ltb_lt (a b : string) : String.ltb a b = true <-> String_as_OT.lt a b.
Proof.
  rewrite <- String_as_OT.cmp_lt.
  unfold String.ltb, String_as_OT.cmp.
  destruct (Stdlib.Strings.String.compare a b); split; congruence.
Qed.

Lemma ltb_trans (a b c : string) :
  String.ltb a b = true -> String.ltb b c = true -> String.ltb a c = true.
Proof. rewrite !ltb_lt. apply String_as_OT.lt_trans. Qed.

Lemma ltb_irrefl (a : string) : String.ltb a a = true -> False.
Proof.
  rewrite ltb_lt. intros H.
  apply String_as_OT.lt_not_eq in H. now apply H.
Qed.

Lemma ltb_asym (a b : string) : String.ltb a b = true -> String.ltb b a = true -> False.
Proof. intros Hab Hba. exact (ltb_irrefl a (ltb_trans _ _ _ Hab Hba)). Qed.

Lemma ltb_total (a b : string) :
  a <> b -> String.ltb a b = false -> String.ltb b a = true.
Proof.
  intros Hne. unfold String.ltb.
  rewrite (Stdlib.Strings.String.compare_antisym b a).
  destruct (Stdlib.Strings.String.compare a b) eqn:Hc; simpl;
    try congruence.
  now apply Stdlib.Strings.String.compare_eq_iff in Hc.
Qed.

(** On tuples with different keys, [<] is [<] of the keys. *)
Lemma tuple_lt_keys (x y : string * Q) :
  x.1 <> y.1 -> tuple_lt x y = String.ltb x.1 y.1.
Proof.
  intros Hne. unfold tuple_lt.
  now apply Stdlib.Strings.String.eqb_neq in Hne as ->.
Qed.

Lemma insert_sorted_perm (x : string * Q) (l : list (string * Q)) :
  Permutation (insert_sorted x l) (x :: l).
Proof.
  induction l as [|y l IH]; simpl; [reflexivity|].
  destruct (tuple_lt x y); [reflexivity|].
  rewrite IH. apply perm_swap.
Qed.

Lemma fold_insert_perm (l acc : list (string * Q)) :
  Permutation (fold_left (fun acc x => insert_sorted x acc) l acc) (l ++ acc).
Proof.
  revert acc. induction l as [|x l IH]; intros acc; simpl; [reflexivity|].
  rewrite IH, insert_sorted_perm. symmetry. apply Permutation_middle.
Qed.

Lemma sorted_perm (l : list (string * Q)) : Permutation (sorted l) l.
Proof.
  unfold sorted. rewrite fold_insert_perm. now rewrite app_nil_r.
Qed.

(** Inserting a tuple with a fresh key keeps the keys ascending. *)
Lemma insert_sorted_ascending (x : string * Q) (l : list (string * Q)) :
  StronglySorted key_lt l ->
  ~ In x.1 (map fst l) ->
  StronglySorted key_lt (insert_sorted x l).
Proof.
  induction l as [|y l IH]; simpl; intros Hs Hnin.
  - repeat constructor.
  - apply StronglySorted_inv in Hs as [Hs Hy].
    assert (Hne : x.1 <> y.1) by (intros Heq; apply Hnin; now left).
    rewrite (tuple_lt_keys _ _ Hne).
    destruct (String.ltb x.1 y.1) eqn:Hlt.
    + constructor.
      * now constructor.
      * constructor; [exact Hlt|].
        eapply Forall_impl; [exact Hy|].
        intros z Hz. exact (ltb_trans _ _ _ Hlt Hz).
    + constructor.
      * apply IH; [exact Hs|]. intros Hin. apply Hnin. now right.
      * eapply Permutation_Forall.
        { symmetry. apply insert_sorted_perm. }
        constructor; [|exact Hy].
        now apply ltb_total.
Qed.

Lemma fold_insert_ascending (l acc : list (string * Q)) :
  StronglySorted key_lt acc ->
  List.NoDup (map fst (l ++ acc)) ->
  StronglySorted key_lt (fold_left (fun acc x => insert_sorted x acc) l acc).
Proof.
  revert acc. induction l as [|x l IH]; intros acc Hs Hnd; simpl; [exact Hs|].
  simpl in Hnd. apply NoDup_cons_iff in Hnd as [Hnin Hnd].
  apply IH.
  - apply insert_sorted_ascending; [exact Hs|].
    intros Hin. apply Hnin. rewrite map_app. apply in_or_app. now right.
  - eapply Permutation_NoDup; [|constructor; [exact Hnin|exact Hnd]].
    change (x.1 :: map fst (l ++ acc)) with (map fst (x :: l ++ acc)).
    apply Permutation_map.
    rewrite insert_sorted_perm. apply Permutation_middle.
Qed.

(** The sort puts tuples with distinct keys in ascending key order. *)
Lemma sorted_ascending (l : list (string * Q)) :
  List.NoDup (map fst l) -> StronglySorted key_lt (sorted l).
Proof.
  intros Hnd. apply fold_insert_ascending; [constructor|].
  now rewrite app_nil_r.
Qed.

(** The sort does not see the order its input comes in. *)
Lemma sorted_of_perm (l l' : list (string * Q)) :
  List.NoDup (map fst l) -> Permutation l l' -> sorted l = sorted l'.
Proof.
  intros Hnd Hp.
  assert (Hnd' : List.NoDup (map fst l')).
  { eapply Permutation_NoDup; [|exact Hnd]. now apply Permutation_map. }
  apply (StronglySorted_unique_strong key_lt).
  - intros x1 x2 _ _ H12 H21. destruct (ltb_asym _ _ H12 H21).
  - now apply sorted_ascending.
  - now apply sorted_ascending.
  - now rewrite !sorted_perm.
Qed.

End key_order.

(** ** Sums *)

Section sums.

Lemma Qsum_perm (l l' : list Q) : Permutation l l' -> (Qsum l == Qsum l')%Q.
Proof.
  induction 1 as [|x l l' _ IH|x y l|l l' l'' _ IH1 _ IH2]; simpl.
  - reflexivity.
  - now rewrite IH.
  - ring.
  - now rewrite IH1.
Qed.

Lemma Zsum_perm (l l' : list Z) :
  Permutation l l' -> fold_right Z.add 0%Z l = fold_right Z.add 0%Z l'.
Proof.
  induction 1 as [|x l l' _ IH|x y l|l l' l'' _ IH1 _ IH2]; simpl; lia.
Qed.

(** [np.sum] adds in [int64] whatever the order. *)
Lemma np_sum_perm (l l' : list Z) : Permutation l l' -> np_sum l = np_sum l'.
Proof. intros Hp. unfold np_sum. now rewrite (Zsum_perm _ _ Hp). Qed.

Lemma total_perm (counts counts' : list (string * Z)) :
  Permutation counts counts' -> total counts = total counts'.
Proof. intros Hp. apply Zsum_perm. now apply Permutation_map. Qed.

(** A number that fits [int64] is not changed by the wrap-around. *)
Lemma wrap_int64_small (z : Z) :
  (0 <= z < 2 ^ 63)%Z -> wrap_int64 z = z.
Proof.
  intros Hz. unfold wrap_int64.
  rewrite Z.mod_small; lia.
Qed.

(** On the counts of a run, [np.sum] is the total. *)
Lemma np_sum_shot_counts (counts : list (string * Z)) :
  shot_counts counts -> np_sum (map snd counts) = total counts.
Proof.
  intros [_ Ht]. unfold np_sum. fold (total counts).
  apply wrap_int64_small. lia.
Qed.

Lemma normalized_shot_counts (counts : list (string * Z)) :
  shot_counts counts -> normalized counts = frequencies counts.
Proof.
  intros Hs. unfold normalized, frequencies.
  now rewrite (np_sum_shot_counts _ Hs).
Qed.

Lemma shot_counts_perm (counts counts' : list (string * Z)) :
  Permutation counts counts' -> shot_counts counts -> shot_counts counts'.
Proof.
  intros Hp [Hnn Ht]. split.
  - eapply Permutation_Forall; eassumption.
  - now rewrite <- (total_perm _ _ Hp).
Qed.

(** Dividing every count by [t] divides their total by [t]. *)
Lemma Qsum_scaled (t : Q) (counts : list (string * Z)) :
  (Qsum (map snd (map (fun kv : string * Z => (kv.1, float kv.2 / t)) counts))
   == float (total counts) / t)%Q.
Proof.
  unfold total. induction counts as [|[k v] counts IH]; simpl.
  - unfold float, Qdiv. simpl. ring.
  - rewrite IH. unfold float. rewrite inject_Z_plus. unfold Qdiv. ring.
Qed.

Lemma normalized_keys (counts : list (string * Z)) :
  map fst (normalized counts) = map fst counts.
Proof.
  unfold normalized. rewrite map_map. reflexivity.
Qed.

Lemma frequencies_keys (counts : list (string * Z)) :
  map fst (frequencies counts) = map fst counts.
Proof.
  unfold frequencies. rewrite map_map. reflexivity.
Qed.

Lemma normalized_perm (counts counts' : list (string * Z)) :
  Permutation counts counts' ->
  Permutation (normalized counts) (normalized counts').
Proof.
  intros Hp. unfold normalized.
  rewrite (np_sum_perm _ _ (Permutation_map snd Hp)).
  now apply Permutation_map.
Qed.

Lemma frequencies_perm (counts counts' : list (string * Z)) :
  Permutation counts counts' ->
  Permutation (frequencies counts) (frequencies counts').
Proof.
  intros Hp. unfold frequencies.
  rewrite (total_perm _ _ Hp).
  now apply Permutation_map.
Qed.

(** The frequencies of a run with at least one shot sum to one. *)
Lemma Qsum_frequencies (counts : list (string * Z)) :
  (0 < total counts)%Z ->
  (Qsum (map snd (frequencies counts)) == 1)%Q.
Proof.
  intros Hpos. unfold frequencies. rewrite Qsum_scaled.
  apply Qmult_inv_r. unfold float.
  intros H. apply (Qlt_irrefl 0). rewrite <- H at 2.
  rewrite Zlt_Qlt in Hpos. exact Hpos.
Qed.

(** Amplitude times conjugate has the squared magnitude as real part. *)
Lemma real_multiply_conj (sv : list complex) :
  real (np_multiply sv (np_conj sv)) =
  map (fun z => (Cmult z (Cconj z)).1) sv.
Proof.
  induction sv as [|z sv IH]; [reflexivity|].
  unfold real, np_multiply, np_conj in *. cbn [map zip_with].
  f_equal. exact IH.
Qed.

Lemma Cmult_conj_norm2 (z : complex) : ((Cmult z (Cconj z)).1 == norm2 z)%Q.
Proof. destruct z as [a b]. unfold Cmult, Cconj, norm2. simpl. ring. Qed.

(** The product of an amplitude with its conjugate has no imaginary part. *)
Lemma Cmult_conj_imaginary (z : complex) : ((Cmult z (Cconj z)).2 == 0)%Q.
Proof. destruct z as [a b]. unfold Cmult, Cconj. simpl. ring. Qed.

Lemma norm2_nonneg (z : complex) : (0 <= norm2 z)%Q.
Proof.
  destruct z as [a b]. unfold norm2. simpl. nra.
Qed.

Lemma Qsum_squared_magnitudes (sv : list complex) :
  (Qsum (map (fun z => (Cmult z (Cconj z)).1) sv) == Qsum (map norm2 sv))%Q.
Proof.
  induction sv as [|z sv IH]; [reflexivity|].
  unfold Qsum in *. cbn [map fold_right].
  apply Qplus_comp; [apply Cmult_conj_norm2|exact IH].
Qed.

Lemma squared_magnitudes_nonneg (sv : list complex) :
  Forall (Qle 0) (map (fun z => (Cmult z (Cconj z)).1) sv).
Proof.
  induction sv as [|z sv IH]; cbn [map]; constructor.
  - rewrite Cmult_conj_norm2. apply norm2_nonneg.
  - exact IH.
Qed.

End sums.

(** ** Sampling mode: frequencies, keys and bit-strings *)

Section sampling_facts.

Lemma Zsum_nonneg (l : list Z) :
  Forall (fun v => (0 <= v)%Z) l -> (0 <= fold_right Z.add 0 l)%Z.
Proof. induction 1 as [|v l Hv _ IH]; simpl; lia. Qed.

Lemma Zsum_bounds (l : list Z) (v : Z) :
  Forall (fun v => (0 <= v)%Z) l -> In v l ->
  (0 <= v <= fold_right Z.add 0 l)%Z.
Proof.
  induction 1 as [|w l Hw Hl IH]; simpl; [tauto|].
  pose proof (Zsum_nonneg l Hl).
  intros [<-|Hin]; [lia|]. specialize (IH Hin). lia.
Qed.

(** A count between zero and the positive total is a frequency in [0, 1]. *)
Lemma frequency_bounds (v t : Z) :
  (0 <= v <= t)%Z -> (0 < t)%Z ->
  (0 <= float v / float t /\ float v / float t <= 1)%Q.
Proof.
  intros [Hv Hvt] Ht. unfold float.
  assert (Hq : (0 < inject_Z t)%Q) by (now rewrite Zlt_Qlt in Ht).
  split.
  - apply Qle_shift_div_l; [exact Hq|]. rewrite Qmult_0_l.
    now rewrite Zle_Qle in Hv.
  - apply Qle_shift_div_r; [exact Hq|]. rewrite Qmult_1_l.
    now rewrite Zle_Qle in Hvt.
Qed.

Lemma frequencies_bounds (counts : list (string * Z)) :
  Forall (fun kv => (0 <= kv.2)%Z) counts ->
  (0 < total counts)%Z ->
  Forall (fun kx : string * Q => (0 <= kx.2 /\ kx.2 <= 1)%Q)
         (frequencies counts).
Proof.
  intros Hnn Hpos. unfold frequencies.
  assert (Hall : Forall (fun v => (0 <= v)%Z) (map snd counts)).
  { clear Hpos. induction Hnn; simpl; constructor; auto. }
  apply List.Forall_forall. intros kx Hin.
  apply in_map_iff in Hin as ([k v] & <- & Hin). simpl.
  apply frequency_bounds; [|exact Hpos].
  apply Zsum_bounds; [exact Hall|].
  apply in_map_iff. exists (k, v). auto.
Qed.

(** A list whose keys ascend has no key twice, and the sort leaves it as
    it is. *)
Lemma ascending_keys_NoDup (l : list (string * Q)) :
  StronglySorted key_lt l -> List.NoDup (map fst l).
Proof.
  induction 1 as [|x l _ IH Hx]; simpl; constructor; [|exact IH].
  intros Hin. apply in_map_iff in Hin as (y & Hxy & Hy).
  rewrite List.Forall_forall in Hx. specialize (Hx y Hy).
  unfold key_lt in Hx. rewrite Hxy in Hx. exact (ltb_irrefl _ Hx).
Qed.

Lemma sorted_of_ascending (l : list (string * Q)) :
  StronglySorted key_lt l -> sorted l = l.
Proof.
  intros Hs. apply (StronglySorted_unique_strong key_lt).
  - intros x1 x2 _ _ H12 H21. destruct (ltb_asym _ _ H12 H21).
  - apply sorted_ascending. now apply ascending_keys_NoDup.
  - exact Hs.
  - apply sorted_perm.
Qed.

(** Among numerals of the same width, the order of the strings is the
    order of the numbers. *)
Lemma bitstring_lt (n i j : nat) :
  (i < j < 2 ^ n)%nat ->
  Stdlib.Strings.String.ltb (bitstring n i) (bitstring n j) = true.
Proof.
  revert i j. induction n as [|n IH]; intros i j Hij; simpl in *; [lia|].
  destruct (Nat.ltb_spec i (2 ^ n)) as [Hi|Hi];
    destruct (Nat.ltb_spec j (2 ^ n)) as [Hj|Hj].
  - specialize (IH i j ltac:(lia)).
    unfold Stdlib.Strings.String.ltb in *. simpl. exact IH.
  - reflexivity.
  - lia.
  - specialize (IH (i - 2 ^ n) (j - 2 ^ n) ltac:(lia)).
    unfold Stdlib.Strings.String.ltb in *. simpl. exact IH.
Qed.

Lemma ascending_map_seq (f : nat -> string * Q) (start len : nat) :
  (forall i j, (start <= i < j)%nat -> (j < start + len)%nat ->
               key_lt (f i) (f j)) ->
  StronglySorted key_lt (map f (seq start len)).
Proof.
  revert start. induction len as [|len IH]; intros start Hf; simpl.
  - constructor.
  - constructor.
    + apply IH. intros i j Hi Hj. apply Hf; lia.
    + apply List.Forall_forall. intros y Hy.
      apply in_map_iff in Hy as (j & <- & Hj). apply in_seq in Hj.
      apply Hf; lia.
Qed.

Lemma frequencies_complete (n : nat) (c : nat -> Z) :
  frequencies (complete_counts n c) =
  map (fun i => (bitstring n i,
                 (float (c i) / float (total (complete_counts n c)))%Q))
      (seq 0 (2 ^ n)).
Proof.
  unfold frequencies. generalize (total (complete_counts n c)). intros t.
  unfold complete_counts. rewrite map_map. reflexivity.
Qed.

Lemma frequencies_complete_ascending (n : nat) (c : nat -> Z) :
  StronglySorted key_lt (frequencies (complete_counts n c)).
Proof.
  rewrite frequencies_complete. apply ascending_map_seq.
  intros i j Hi Hj. unfold key_lt. simpl. apply bitstring_lt. lia.
Qed.

(** The numerals of [n] bits are pairwise different. *)
Lemma bitstrings_NoDup (n : nat) :
  List.NoDup (map (bitstring n) (seq 0 (2 ^ n))).
Proof.
  pose proof (frequencies_complete_ascending n (fun _ => 0%Z)) as Hs.
  apply ascending_keys_NoDup in Hs.
  rewrite frequencies_keys in Hs. unfold complete_counts in Hs.
  rewrite map_map in Hs. exact Hs.
Qed.

(** Inserting tuples with the same key and equal numbers into lists with
    the same keys and equal numbers: the sort looks at the keys only. *)
Lemma insert_sorted_same_entry (x y : string * Q)
    (acc1 acc2 : list (string * Q)) :
  Forall2 same_entry acc1 acc2 ->
  same_entry x y ->
  ~ In x.1 (map fst acc1) ->
  Forall2 same_entry (insert_sorted x acc1) (insert_sorted y acc2).
Proof.
  intros Hacc [Hk Hv]. induction Hacc as [|a b acc1 acc2 [Hab Hq] Hacc IH];
    intros Hnin; simpl.
  - repeat constructor; assumption.
  - assert (Hne : x.1 <> a.1) by (intros Heq; apply Hnin; now left).
    rewrite (tuple_lt_keys x a Hne).
    rewrite (tuple_lt_keys y b) by congruence.
    rewrite <- Hk, <- Hab.
    destruct (Stdlib.Strings.String.ltb x.1 a.1).
    + constructor; [split; assumption|]. constructor; [split; assumption|].
      exact Hacc.
    + constructor; [split; assumption|]. apply IH.
      intros Hin. apply Hnin. now right.
Qed.

Lemma fold_insert_same_entry (l1 l2 acc1 acc2 : list (string * Q)) :
  Forall2 same_entry l1 l2 ->
  Forall2 same_entry acc1 acc2 ->
  List.NoDup (map fst (l1 ++ acc1)) ->
  Forall2 same_entry
    (fold_left (fun acc x => insert_sorted x acc) l1 acc1)
    (fold_left (fun acc x => insert_sorted x acc) l2 acc2).
Proof.
  intros Hl. revert acc1 acc2.
  induction Hl as [|x y l1 l2 Hxy Hl IH]; intros acc1 acc2 Hacc Hnd; simpl.
  - exact Hacc.
  - simpl in Hnd. apply NoDup_cons_iff in Hnd as [Hnin Hnd].
    apply IH.
    + apply insert_sorted_same_entry; [exact Hacc|exact Hxy|].
      intros Hin. apply Hnin. rewrite map_app. apply in_or_app. now right.
    + eapply Permutation_NoDup; [|constructor; [exact Hnin|exact Hnd]].
      change (x.1 :: map fst (l1 ++ acc1)) with (map fst (x :: l1 ++ acc1)).
      apply Permutation_map.
      rewrite insert_sorted_perm. apply Permutation_middle.
Qed.

Lemma sorted_same_entry (l1 l2 : list (string * Q)) :
  Forall2 same_entry l1 l2 ->
  List.NoDup (map fst l1) ->
  Forall2 same_entry (sorted l1) (sorted l2).
Proof.
  intros Hl Hnd. apply fold_insert_same_entry; [exact Hl|constructor|].
  now rewrite app_nil_r.
Qed.

Lemma total_scaled (k : Z) (counts : list (string * Z)) :
  total (scale_counts k counts) = (k * total counts)%Z.
Proof.
  unfold total, scale_counts.
  induction counts as [|[key v] counts IH]; simpl; [lia|].
  rewrite IH. lia.
Qed.

Lemma shot_counts_scaled (k : Z) (counts : list (string * Z)) :
  shot_counts counts ->
  (0 < k)%Z ->
  (k * total counts < 2 ^ 63)%Z ->
  shot_counts (scale_counts k counts).
Proof.
  intros [Hnn Ht] Hk Hkt. split.
  - unfold scale_counts. clear Ht Hkt.
    induction Hnn as [|[key v] counts Hv _ IH]; simpl; constructor;
      [simpl in *; lia|exact IH].
  - rewrite total_scaled. nia.
Qed.

Lemma frequencies_scaled (k : Z) (counts : list (string * Z)) :
  (0 < k)%Z ->
  (0 < total counts)%Z ->
  Forall2 same_entry (frequencies (scale_counts k counts)) (frequencies counts).
Proof.
  intros Hk Hpos. unfold frequencies. rewrite total_scaled.
  revert Hpos. generalize (total counts). intros t Ht.
  unfold scale_counts. rewrite map_map.
  induction counts as [|[key v] counts IH]; simpl; [constructor|].
  constructor; [|exact IH].
  split; [reflexivity|]. simpl. unfold float.
  rewrite !inject_Z_mult.
  assert (Hkq : ~ (inject_Z k == 0)%Q).
  { intros H. apply (Qlt_irrefl 0). rewrite <- H at 2.
    now rewrite Zlt_Qlt in Hk. }
  assert (Htq : ~ (inject_Z t == 0)%Q).
  { intros H. apply (Qlt_irrefl 0). rewrite <- H at 2.
    now rewrite Zlt_Qlt in Ht. }
  field. split; assumption.
Qed.

Lemma same_entry_values (l1 l2 : list (string * Q)) :
  Forall2 same_entry l1 l2 -> Forall2 Qeq (map snd l1) (map snd l2).
Proof.
  induction 1 as [|a b l1 l2 [_ Hq] _ IH]; simpl; constructor; assumption.
Qed.

(** A numeral of [n] bits writes a number below [2^n], and that number is
    written by that numeral. *)
Lemma bitstring_bits_value (n : nat) (s : string) :
  is_bitstring n s = true ->
  (bits_value n s < 2 ^ n)%nat /\ bitstring n (bits_value n s) = s.
Proof.
  revert s. induction n as [|n IH]; intros [|ch s]; simpl; try discriminate.
  - intros _. split; [lia|reflexivity].
  - intros H. apply andb_prop in H as [Hch Hs].
    destruct (IH s Hs) as [Hlt Hrt].
    destruct (Ascii.eqb_spec ch "1") as [->|Hne1].
    + split; [lia|].
      destruct (Nat.ltb_spec (2 ^ n + bits_value n s) (2 ^ n)); [lia|].
      replace (2 ^ n + bits_value n s - 2 ^ n)%nat with (bits_value n s)
        by lia.
      now rewrite Hrt.
    + rewrite orb_false_r in Hch. apply Ascii.eqb_eq in Hch as ->.
      simpl. split; [lia|].
      destruct (Nat.ltb_spec (bits_value n s) (2 ^ n)); [|lia].
      now rewrite Hrt.
Qed.

(** Distinct keys of [n] bits are among the [2^n] numerals; there are
    [2^n] of them exactly when every numeral is a key. *)
Lemma bit_keys_incl (n : nat) (counts : list (string * Z)) :
  Forall (fun kv => is_bitstring n kv.1 = true) counts ->
  incl (map fst counts) (map (bitstring n) (seq 0 (2 ^ n))).
Proof.
  intros Hbits key Hin. apply in_map_iff in Hin as ([key' v] & <- & Hin).
  rewrite List.Forall_forall in Hbits. specialize (Hbits _ Hin). simpl in *.
  apply bitstring_bits_value in Hbits as [Hlt Hrt].
  apply in_map_iff. exists (bits_value n key').
  split; [exact Hrt|]. apply in_seq. lia.
Qed.

Lemma bit_keys_length_le (n : nat) (counts : list (string * Z)) :
  List.NoDup (map fst counts) ->
  Forall (fun kv => is_bitstring n kv.1 = true) counts ->
  (length counts <= 2 ^ n)%nat.
Proof.
  intros Hnd Hbits.
  pose proof (NoDup_incl_length Hnd (bit_keys_incl n counts Hbits)) as Hle.
  now rewrite !length_map, length_seq in Hle.
Qed.

Lemma bit_keys_complete_iff (n : nat) (counts : list (string * Z)) :
  List.NoDup (map fst counts) ->
  Forall (fun kv => is_bitstring n kv.1 = true) counts ->
  (length counts = 2 ^ n <->
   forall i, (i < 2 ^ n)%nat -> In (bitstring n i) (map fst counts)).
Proof.
  intros Hnd Hbits. pose proof (bit_keys_incl n counts Hbits) as Hincl.
  split.
  - intros Hlen i Hi.
    assert (Hle : (length (map (bitstring n) (seq 0 (2 ^ n))) <=
                   length (map fst counts))%nat)
      by (rewrite !length_map, length_seq; lia).
    apply (NoDup_length_incl Hnd Hle Hincl).
    apply in_map. apply in_seq. lia.
  - intros Hall.
    assert (Hincl' : incl (map (bitstring n) (seq 0 (2 ^ n))) (map fst counts)).
    { intros key Hin. apply in_map_iff in Hin as (i & <- & Hi).
      apply in_seq in Hi. apply Hall. lia. }
    pose proof (NoDup_incl_length (bitstrings_NoDup n) Hincl') as Hge.
    pose proof (NoDup_incl_length Hnd Hincl) as Hle.
    rewrite !length_map, length_seq in Hge, Hle. lia.
Qed.

End sampling_facts.

(** ** The claims on [set_probabilities] and [build] *)

(** C1, as stated, fails in both modes.  In sampling mode a backend that
    reports one observed outcome for a one-qubit distribution leaves a
    vector of length one.  In exact mode a variational form that works on
    an ancilla qubit makes the simulator return four amplitudes for a
    one-qubit distribution, and all four are stored. *)
Lemma probabilities_length_counterexample :
  (exists self' : UVD.t,
     UVD.set_probabilities qiskit_checks (counts_backend [("0", 5%Z)])
                           one_qubit = (self', Ok tt) /\
     length (UVD._probabilities self') = 1%nat /\
     2 ^ UVD._num_qubits self' = 2%nat) /\
  (exists self' : UVD.t,
     UVD.set_probabilities qiskit_checks simulator one_qubit_ancilla =
       (self', Ok tt) /\
     length (UVD._probabilities self') = 4%nat /\
     2 ^ UVD._num_qubits self' = 2%nat).
Proof.
  split; eexists; (split; [vm_compute; reflexivity|split; reflexivity]).
Qed.

(** C1, amended.  After construction the probabilities are [2**num_qubits]
    zeros.  A call of [set_probabilities] that raises leaves them as they
    were.  A call that returns has executed the assembled circuit (in
    sampling mode with the measurement added) and leaves, in exact mode,
    one entry per amplitude of the statevector returned for that circuit,
    and in sampling mode one entry per key of the counts mapping returned
    for it; when these keys are distinct strings of [num_qubits] bits, the
    length is [2**num_qubits] if and only if every such string is a key. *)
Theorem probabilities_length :
  (forall (num_qubits : nat) (var_form : VariationalForm) (params : list Q)
          (initial_distribution : option InitialState) (low high : Q),
     UVD._probabilities
       (UVD.__init__ num_qubits var_form params initial_distribution low high) =
       repeat 0%Q (2 ^ num_qubits) /\
     length (UVD._probabilities
       (UVD.__init__ num_qubits var_form params initial_distribution low high)) =
       2 ^ num_qubits) /\
  (forall (fw : Framework) (qi : QuantumInstance) (self self' : UVD.t)
          (e : exception),
     UVD.set_probabilities fw qi self = (self', Raise e) ->
     UVD._probabilities self' = UVD._probabilities self) /\
  (forall (fw : Framework) (qi : QuantumInstance) (self : UVD.t)
          (qc0 vfc qc : Circuit) (res : Result) (sv : list complex),
     is_statevector qi = true ->
     assembles fw self qc0 vfc qc ->
     execute qi qc = Ok res ->
     get_statevector res qc = Ok sv ->
     length (UVD._probabilities (UVD.set_probabilities fw qi self).1) =
       length sv) /\
  (forall (fw : Framework) (qi : QuantumInstance) (self : UVD.t)
          (qc0 vfc qc1 qc : Circuit) (res : Result)
          (counts : list (string * Z)),
     is_statevector qi = false ->
     assembles fw self qc0 vfc qc1 ->
     measured fw self qc1 = Ok qc ->
     execute qi qc = Ok res ->
     get_counts res qc = Ok counts ->
     length (UVD._probabilities (UVD.set_probabilities fw qi self).1) =
       length counts /\
     (List.NoDup (map fst counts) ->
      Forall (fun kv => is_bitstring (UVD._num_qubits self) kv.1 = true)
             counts ->
      (length (UVD._probabilities (UVD.set_probabilities fw qi self).1) =
         2 ^ UVD._num_qubits self <->
       forall i, (i < 2 ^ UVD._num_qubits self)%nat ->
                 In (bitstring (UVD._num_qubits self) i) (map fst counts)))) /\
  (forall (fw : Framework) (qi : QuantumInstance) (self self' : UVD.t),
     UVD.set_probabilities fw qi self = (self', Ok tt) ->
     UVD._num_qubits self' = UVD._num_qubits self /\
     exists qc0 vfc qc1 : Circuit,
       assembles fw self qc0 vfc qc1 /\
       if is_statevector qi then
         exists (res : Result) (sv : list complex),
           execute qi qc1 = Ok res /\ get_statevector res qc1 = Ok sv
       else
         exists (qc : Circuit) (res : Result) (counts : list (string * Z)),
           measured fw self qc1 = Ok qc /\
           execute qi qc = Ok res /\ get_counts res qc = Ok counts).
Proof.
  split; [|split; [|split; [|split]]].
  - intros n vf ps ini lo hi. simpl. unfold np_zeros.
    split; [reflexivity|apply repeat_length].
  - intros fw qi self self' e H.
    apply set_probabilities_raise in H as [-> _]. reflexivity.
  - intros fw qi self qc0 vfc qc res sv Hmode Ha H2 H3.
    rewrite (set_probabilities_exact_run _ _ _ _ _ _ _ _ Hmode Ha H2 H3).
    simpl. rewrite real_multiply_conj. apply length_map.
  - intros fw qi self qc0 vfc qc1 qc res counts Hmode Ha Hm H2 H3.
    rewrite (set_probabilities_sampling_run _ _ _ _ _ _ _ _ _
               Hmode Ha Hm H2 H3).
    simpl.
    assert (Hlen : length (map snd (sorted (normalized counts))) =
                   length counts).
    { rewrite length_map, (Permutation_length (sorted_perm _)).
      unfold normalized. apply length_map. }
    split; [exact Hlen|]. intros Hnd Hbits. rewrite Hlen.
    now apply bit_keys_complete_iff.
  - intros fw qi self self' H.
    apply set_probabilities_return in H as (qc0 & vfc & qc1 & Ha & H).
    destruct (is_statevector qi).
    + destruct H as (res & sv & H2 & H3 & ->). split; [reflexivity|].
      exists qc0, vfc, qc1. split; [exact Ha|]. eauto.
    + destruct H as (qc & res & counts & Hm & H2 & H3 & ->).
      split; [reflexivity|].
      exists qc0, vfc, qc1. split; [exact Ha|]. eauto 6.
Qed.

(** C2, as stated, fails: [np.sum] adds the counts in [int64], so the
    total of two counts of [2^62] wraps to [-2^63], both stored entries
    are [-1/2], and they sum to [-1]. *)
Lemma set_probabilities_sampling_counterexample :
  exists self' : UVD.t,
    UVD.set_probabilities qiskit_checks
      (counts_backend [("0", (2 ^ 62)%Z); ("1", (2 ^ 62)%Z)]) one_qubit =
      (self', Ok tt) /\
    Forall2 Qeq (UVD._probabilities self') [(- (1 # 2))%Q; (- (1 # 2))%Q] /\
    ~ (Qsum (UVD._probabilities self') == 1)%Q.
Proof.
  eexists. split; [vm_compute; reflexivity|]. split.
  - repeat constructor.
  - vm_compute. discriminate.
Qed.

(** C2, amended.  In sampling mode, when the backend returns counts none
    of which is negative and whose total is positive and below [2^63],
    [set_probabilities] stores the counts divided by their total, in
    ascending order of the bit-string keys.  The stored vector sums to one,
    and a backend that returns the same mapping with its keys in another
    order leads to the same stored vector. *)
Theorem set_probabilities_sampling
    (fw : Framework) (qi : QuantumInstance) (self : UVD.t)
    (qc0 vfc qc1 qc : Circuit) (res : Result) (counts : list (string * Z)) :
  is_statevector qi = false ->
  assembles fw self qc0 vfc qc1 ->
  measured fw self qc1 = Ok qc ->
  execute qi qc = Ok res ->
  get_counts res qc = Ok counts ->
  List.NoDup (map fst counts) ->
  shot_counts counts ->
  UVD.set_probabilities fw qi self =
    (UVD.with_probabilities self (map snd (sorted (frequencies counts))),
     Ok tt) /\
  Permutation (sorted (frequencies counts)) (frequencies counts) /\
  StronglySorted key_lt (sorted (frequencies counts)) /\
  (Qsum (map snd (sorted (frequencies counts))) == 1)%Q /\
  (forall (qi' : QuantumInstance) (res' : Result)
          (counts' : list (string * Z)),
     is_statevector qi' = false ->
     execute qi' qc = Ok res' ->
     get_counts res' qc = Ok counts' ->
     Permutation counts counts' ->
     UVD.set_probabilities fw qi' self = UVD.set_probabilities fw qi self).
Proof.
  intros Hmode Ha Hm H2 H3 Hnd Hshots.
  pose proof (set_probabilities_sampling_run _ _ _ _ _ _ _ _ _
                Hmode Ha Hm H2 H3) as Hrun.
  split; [|split; [apply sorted_perm|split; [|split]]].
  - now rewrite <- (normalized_shot_counts _ Hshots).
  - apply sorted_ascending. now rewrite frequencies_keys.
  - rewrite (Qsum_perm _ _ (Permutation_map snd (sorted_perm _))).
    apply Qsum_frequencies. destruct Hshots as [_ Ht]. lia.
  - intros qi' res' counts' Hmode' H2' H3' Hp.
    rewrite Hrun.
    rewrite (set_probabilities_sampling_run _ _ _ _ _ _ _ _ _
               Hmode' Ha Hm H2' H3').
    rewrite (sorted_of_perm (normalized counts) (normalized counts')).
    + reflexivity.
    + now rewrite normalized_keys.
    + now apply normalized_perm.
Qed.

(** Four shots on one qubit, the outcome ["1"] reported first. *)
Lemma set_probabilities_sampling_witness :
  UVD._probabilities
    (UVD.set_probabilities qiskit_checks
       (counts_backend [("1", 3%Z); ("0", 1%Z)]) one_qubit).1 =
  [(1 # 4)%Q; (3 # 4)%Q].
Proof.
  assert (Ha : assembles qiskit_checks one_qubit
                 (QuantumCircuit (q_of one_qubit))
                 (mkCircuit [q_of one_qubit] [] [Gate "ry" [1%Q] [("q", 0%nat)]])
                 (mkCircuit [q_of one_qubit] [] [Gate "ry" [1%Q] [("q", 0%nat)]]))
    by (repeat split).
  assert (Hnd : List.NoDup (map fst [("1", 3%Z); ("0", 1%Z)]))
    by (repeat constructor; simpl; intuition discriminate).
  assert (Hs : shot_counts [("1", 3%Z); ("0", 1%Z)])
    by (split; [repeat constructor; simpl; lia|unfold total; simpl; lia]).
  destruct (set_probabilities_sampling qiskit_checks
              (counts_backend [("1", 3%Z); ("0", 1%Z)]) one_qubit _ _ _
              (mkCircuit [q_of one_qubit] [mkRegister 1 "c"]
                         [Gate "ry" [1%Q] [("q", 0%nat)];
                          Measure ("q", 0%nat) ("c", 0%nat)])
              (mkResult (fun _ => Raise (ExternalError "no statevector"))
                        (fun _ => Ok [("1", 3%Z); ("0", 1%Z)]))
              [("1", 3%Z); ("0", 1%Z)]
              eq_refl Ha eq_refl eq_refl eq_refl Hnd Hs) as [Hrun _].
  rewrite Hrun. reflexivity.
Defined.

(** C3.  In exact mode, when the backend returns a statevector of
    [2**num_qubits] amplitudes of unit norm, [set_probabilities] executes
    the circuit of the two fragments with no measurement appended (its
    instructions are those of the fragments, it holds a measurement only
    if a fragment does, and no classical register is added) and stores the
    real parts of amplitude times conjugate, index by index.  These are the
    squared magnitudes; the stored vector has length [2**num_qubits], no
    negative entry, and sums to one. *)
Theorem set_probabilities_exact
    (fw : Framework) (qi : QuantumInstance) (self : UVD.t)
    (qc0 vfc qc : Circuit) (res : Result) (sv : list complex) :
  is_statevector qi = true ->
  assembles fw self qc0 vfc qc ->
  execute qi qc = Ok res ->
  get_statevector res qc = Ok sv ->
  length sv = 2 ^ UVD._num_qubits self ->
  (Qsum (map norm2 sv) == 1)%Q ->
  UVD.set_probabilities fw qi self =
    (UVD.with_probabilities self (map (fun z => (Cmult z (Cconj z)).1) sv),
     Ok tt) /\
  data qc = data qc0 ++ data vfc /\
  cregs qc = add_missing (cregs qc0) (cregs vfc) /\
  (Forall (fun i => is_measure i = false) (data qc0) ->
   Forall (fun i => is_measure i = false) (data vfc) ->
   Forall (fun i => is_measure i = false) (data qc)) /\
  Forall2 Qeq (map (fun z => (Cmult z (Cconj z)).1) sv) (map norm2 sv) /\
  length (map (fun z => (Cmult z (Cconj z)).1) sv) = 2 ^ UVD._num_qubits self /\
  Forall (Qle 0) (map (fun z => (Cmult z (Cconj z)).1) sv) /\
  (Qsum (map (fun z => (Cmult z (Cconj z)).1) sv) == 1)%Q.
Proof.
  intros Hmode Ha H2 H3 Hlen Hnorm.
  pose proof (set_probabilities_exact_run _ _ _ _ _ _ _ _ Hmode Ha H2 H3)
    as Hrun.
  destruct Ha as (_ & _ & _ & He). apply extend_Ok in He as ->.
  split; [now rewrite <- real_multiply_conj|].
  split; [reflexivity|]. split; [reflexivity|].
  split; [|split; [|split; [|split]]].
  - intros Hq Hv. simpl. apply Forall_app. now split.
  - clear. induction sv as [|z sv IH]; cbn [map]; constructor.
    + apply Cmult_conj_norm2.
    + exact IH.
  - now rewrite length_map.
  - apply squared_magnitudes_nonneg.
  - now rewrite Qsum_squared_magnitudes.
Qed.

(** One qubit, statevector (3/5, 4/5 i). *)
Lemma set_probabilities_exact_witness :
  UVD._probabilities
    (UVD.set_probabilities qiskit_checks
       (statevector_backend [(3 # 5, 0); (0, 4 # 5)]%Q)
       one_qubit_prepared).1 =
  [(9 # 25)%Q; (16 # 25)%Q].
Proof.
  assert (Ha : assembles qiskit_checks one_qubit_prepared
                 (mkCircuit [q_of one_qubit_prepared] []
                            [Gate "reset" [] [("q", 0%nat)]])
                 (mkCircuit [q_of one_qubit_prepared] []
                            [Gate "ry" [1%Q] [("q", 0%nat)]])
                 (mkCircuit [q_of one_qubit_prepared] []
                            [Gate "reset" [] [("q", 0%nat)];
                             Gate "ry" [1%Q] [("q", 0%nat)]]))
    by (repeat split).
  destruct (set_probabilities_exact qiskit_checks
              (statevector_backend [(3 # 5, 0); (0, 4 # 5)]%Q)
              one_qubit_prepared _ _ _
              (mkResult (fun _ => Ok [(3 # 5, 0); (0, 4 # 5)]%Q)
                        (fun _ => Raise (ExternalError "no counts")))
              [(3 # 5, 0); (0, 4 # 5)]%Q
              eq_refl Ha eq_refl eq_refl eq_refl eq_refl) as [Hrun _].
  rewrite Hrun. reflexivity.
Defined.



(** C4, as stated, fails: an override is not used.  With current
    parameters [1] and override [2] the rotation appended has angle [1]. *)
Lemma build_override_counterexample :
  ~ (forall (fw : Framework) (self : UVD.t) (q : Register)
            (q_ancillas : option Register) (override : list Q)
            (qc vfc qc' : Circuit),
       UVD._initial_distribution self = None ->
       vf_construct_circuit (UVD._var_form self) override q = Ok vfc ->
       extend fw qc vfc = Ok qc' ->
       UVD.build fw self q q_ancillas (Some override) qc = (qc', Ok tt)).
Proof.
  intros H.
  specialize (H qiskit_checks one_qubit (mkRegister 1 "q") None [2%Q]
                (QuantumCircuit (mkRegister 1 "q"))
                (mkCircuit [mkRegister 1 "q"] []
                           [Gate "ry" [2%Q] [("q", 0%nat)]])
                (mkCircuit [mkRegister 1 "q"] []
                           [Gate "ry" [2%Q] [("q", 0%nat)]])
                eq_refl eq_refl eq_refl).
  vm_compute in H. discriminate H.
Qed.

(** C4, amended.  [build] only appends to the circuit it is given: the
    circuit of the initial distribution first, when there is one, and after
    it the circuit of the variational form on the given register.  The
    variational form is parameterized by the current parameters of the
    object; the [params] argument is not used. *)
Theorem build_appends_in_order
    (fw : Framework) (self : UVD.t) (q : Register)
    (q_ancillas : option Register) (params : option (list Q)) (qc : Circuit) :
  UVD.build fw self q q_ancillas params qc =
    UVD.build fw self q q_ancillas None qc /\
  (exists suffix : list Instruction,
     data (UVD.build fw self q q_ancillas params qc).1 = data qc ++ suffix) /\
  (forall vfc : Circuit,
     vf_construct_circuit (UVD._var_form self) (UVD.params self) q = Ok vfc ->
     match UVD._initial_distribution self with
     | None =>
         forall qc1 : Circuit,
           extend fw qc vfc = Ok qc1 ->
           UVD.build fw self q q_ancillas params qc = (qc1, Ok tt) /\
           data qc1 = data qc ++ data vfc
     | Some initial_distribution =>
         forall ic qc1 qc2 : Circuit,
           is_construct_circuit initial_distribution "circuit" q = Ok ic ->
           extend fw qc ic = Ok qc1 ->
           extend fw qc1 vfc = Ok qc2 ->
           UVD.build fw self q q_ancillas params qc = (qc2, Ok tt) /\
           data qc2 = data qc ++ data ic ++ data vfc
     end).
Proof.
  split; [reflexivity|]. split.
  - rewrite build_unfold.
    destruct (UVD._initial_distribution self) as [ini|].
    + destruct (is_construct_circuit ini _ q) as [ic|e].
      2:{ exists []. simpl. now rewrite app_nil_r. }
      destruct (extend fw qc ic) as [qc1|e] eqn:He1.
      2:{ exists []. simpl. now rewrite app_nil_r. }
      apply extend_Ok in He1 as ->.
      destruct (vf_construct_circuit _ _ q) as [vfc|e].
      2:{ now exists (data ic). }
      destruct (extend fw _ vfc) as [qc2|e] eqn:He2.
      2:{ now exists (data ic). }
      apply extend_Ok in He2 as ->. simpl.
      exists (data ic ++ data vfc). now rewrite app_assoc.
    + destruct (vf_construct_circuit _ _ q) as [vfc|e].
      2:{ exists []. simpl. now rewrite app_nil_r. }
      destruct (extend fw qc vfc) as [qc1|e] eqn:He1.
      2:{ exists []. simpl. now rewrite app_nil_r. }
      apply extend_Ok in He1 as ->. now exists (data vfc).
  - intros vfc Hvf. rewrite build_unfold.
    destruct (UVD._initial_distribution self) as [ini|].
    + intros ic qc1 qc2 Hic He1 He2. rewrite Hic, He1, Hvf, He2.
      split; [reflexivity|].
      apply extend_Ok in He1 as ->. apply extend_Ok in He2 as ->.
      simpl. now rewrite app_assoc.
    + intros qc1 He1. rewrite Hvf, He1. split; [reflexivity|].
      now apply extend_Ok in He1 as ->.
Qed.

(** Onto a circuit that already holds a gate, with an initial distribution,
    and with an override that is handed in and not used. *)
Lemma build_appends_in_order_witness :
  data (UVD.build qiskit_checks one_qubit_prepared (mkRegister 1 "q") None
          (Some [2%Q])
          (mkCircuit [mkRegister 1 "q"] []
                     [Gate "h" [] [("q", 0%nat)]])).1 =
  [Gate "h" [] [("q", 0%nat)];
   Gate "reset" [] [("q", 0%nat)];
   Gate "ry" [1%Q] [("q", 0%nat)]].
Proof.
  pose proof (build_appends_in_order qiskit_checks one_qubit_prepared
                (mkRegister 1 "q") None (Some [2%Q])
                (mkCircuit [mkRegister 1 "q"] []
                           [Gate "h" [] [("q", 0%nat)]])) as (_ & _ & H).
  specialize (H (mkCircuit [mkRegister 1 "q"] []
                           [Gate "ry" [1%Q] [("q", 0%nat)]]) eq_refl).
  simpl in H.
  destruct (H (mkCircuit [mkRegister 1 "q"] []
                         [Gate "reset" [] [("q", 0%nat)]])
              (mkCircuit [mkRegister 1 "q"] []
                         [Gate "h" [] [("q", 0%nat)];
                          Gate "reset" [] [("q", 0%nat)]])
              (mkCircuit [mkRegister 1 "q"] []
                         [Gate "h" [] [("q", 0%nat)];
                          Gate "reset" [] [("q", 0%nat)];
                          Gate "ry" [1%Q] [("q", 0%nat)]])
              eq_refl eq_refl eq_refl) as [-> _].
  reflexivity.
Defined.

(** * Further properties of [SVMInput] *)

Section SVMInput_more.

Lemma truth_large_array (v : value) :
  is_large_array v = true <-> exists e, truth v = Raise e.
Proof.
  split.
  - destruct v as [| | | | | | |shape data]; try discriminate.
    destruct data as [|x [|y data]]; try discriminate. simpl. eauto.
  - intros [e H]. destruct v as [| | | | | | |shape data]; try discriminate.
    destruct data as [|x [|y data]]; try discriminate. reflexivity.
Qed.

Lemma truth_small (v : value) :
  is_large_array v = false -> exists b, truth v = Ok b.
Proof.
  intros Hs. destruct (truth v) as [b|e] eqn:Ht; [eauto|].
  assert (is_large_array v = true) by (apply truth_large_array; eauto).
  congruence.
Qed.

Lemma py_or_Ok (x y v : value) :
  py_or x y = Ok v ->
  (truth x = Ok true /\ v = x) \/ (truth x = Ok false /\ v = y).
Proof.
  unfold py_or. destruct (truth x) as [[|]|e]; simpl; try discriminate;
    intros [= <-]; auto.
Qed.

End SVMInput_more.

(** X1.  The primary constructor returns an instance exactly when neither
    [test_dataset] nor [datapoints] is a numpy array of more than one
    element; when it does not, what it raises is a [ValueError]. *)
Theorem init_succeeds_iff (tr te dp : value) :
  ((exists self, SVMInput.__init__ tr te dp = Ok self) <->
   is_large_array te = false /\ is_large_array dp = false) /\
  (forall e, SVMInput.__init__ tr te dp = Raise e -> exists msg, e = ValueError msg).
Proof.
  split; [|intros e; apply init_raises_ValueError].
  unfold SVMInput.__init__, py_or. split.
  - intros [self H].
    destruct (truth te) as [bt|e1] eqn:Hte; simpl in H; [|discriminate].
    destruct (truth dp) as [bd|e2] eqn:Hdp; simpl in H; [|discriminate].
    split.
    + destruct (is_large_array te) eqn:Hl; [|reflexivity].
      apply truth_large_array in Hl as [e He]. congruence.
    + destruct (is_large_array dp) eqn:Hl; [|reflexivity].
      apply truth_large_array in Hl as [e He]. congruence.
  - intros [Hte Hdp].
    apply truth_small in Hte as [bt ->]. apply truth_small in Hdp as [bd ->].
    simpl. eauto.
Qed.

(** X2.  In an instance the primary constructor returns, [test_dataset]
    is the argument if that is true and the empty dict otherwise, and
    [datapoints] is the argument if that is true and the empty array
    otherwise; in particular neither attribute is ever [None]. *)
Theorem init_attributes_never_None (tr te dp : value) (self : SVMInput.t) :
  SVMInput.__init__ tr te dp = Ok self ->
  SVMInput.training_dataset self = tr /\
  ((truth te = Ok true /\ SVMInput.test_dataset self = te) \/
   (truth te = Ok false /\ SVMInput.test_dataset self = VDict [])) /\
  ((truth dp = Ok true /\ SVMInput.datapoints self = dp) \/
   (truth dp = Ok false /\ SVMInput.datapoints self = np_asarray_empty)) /\
  SVMInput.test_dataset self <> VNone /\
  SVMInput.datapoints self <> VNone.
Proof.
  intros H. apply init_fields in H as (Htr & Hte & Hdp).
  apply py_or_Ok in Hte. apply py_or_Ok in Hdp.
  repeat split; try assumption.
  - destruct Hte as [[Ht ->]|[_ ->]]; [|discriminate].
    intros ->. discriminate.
  - destruct Hdp as [[Ht ->]|[_ ->]]; [|discriminate].
    intros ->. discriminate.
Qed.

(** A false [test_dataset] other than [None], and a true [datapoints]. *)
Lemma init_attributes_never_None_witness :
  SVMInput.__init__ (VStr "train") (VList []) (VList [VInt 3]) =
  Ok (SVMInput.mk (VStr "train") (VDict []) (VList [VInt 3])).
Proof.
  destruct (SVMInput.__init__ (VStr "train") (VList []) (VList [VInt 3]))
    as [self|e] eqn:Hrun; [|discriminate].
  destruct (init_attributes_never_None _ _ _ _ Hrun)
    as (Htr & [[Ht _]|[_ Hte]] & [[_ Hdp]|[Hd _]] & _);
    try discriminate.
  destruct self; simpl in *. now subst.
Defined.

(** X3.  [from_params] reads the three keys and no other: adding,
    changing or removing any other key of the mapping does not change what
    it returns or raises. *)
Theorem from_params_ignores_other_keys
    (params : gmap string value) (key : string) (v : value) :
  key <> "training_dataset" ->
  key <> "test_dataset" ->
  key <> "datapoints" ->
  SVMInput.from_params (<[key := v]> params) = SVMInput.from_params params /\
  SVMInput.from_params (delete key params) = SVMInput.from_params params.
Proof.
  intros H1 H2 H3. unfold SVMInput.from_params, contains, getitem.
  rewrite !lookup_insert_ne, !lookup_delete_ne by congruence.
  split; reflexivity.
Qed.

(** A key the schema does not know. *)
Lemma from_params_ignores_other_keys_witness :
  SVMInput.from_params
    (<["kernel" := VStr "rbf"]>
       (<["training_dataset" := VDict [("A", VList [])]]> ∅)) =
  Raise (KeyError "test_dataset").
Proof.
  pose proof (from_params_ignores_other_keys
                (<["training_dataset" := VDict [("A", VList [])]]> ∅)
                "kernel" (VStr "rbf")) as H.
  destruct H as [-> _]; [discriminate..|reflexivity].
Defined.

(** X4.  The round trip in the other direction: when the mapping has the
    three keys and no other, and its [test_dataset] and [datapoints] are
    true, [to_params (from_params params)] is the mapping itself. *)
Theorem to_params_from_params
    (params : gmap string value) (te dp : value) (self : SVMInput.t) :
  SVMInput.from_params params = Ok self ->
  params !! "test_dataset" = Some te -> truth te = Ok true ->
  params !! "datapoints" = Some dp -> truth dp = Ok true ->
  (forall key, key <> "training_dataset" -> key <> "test_dataset" ->
               key <> "datapoints" -> params !! key = None) ->
  SVMInput.to_params self = params.
Proof.
  intros Hrun Hte Tte Hdp Tdp Hother.
  destruct (params !! "training_dataset") as [tr|] eqn:Htr.
  2:{ unfold SVMInput.from_params, contains in Hrun. rewrite Htr in Hrun.
      discriminate. }
  rewrite (from_params_present _ _ _ _ Htr Hte Hdp) in Hrun.
  unfold SVMInput.__init__ in Hrun.
  rewrite (py_or_true _ _ Tte), (py_or_true _ _ Tdp) in Hrun.
  injection Hrun as <-.
  apply map_eq. intros key. unfold SVMInput.to_params. simpl.
  destruct (decide (key = "datapoints")) as [->|N1].
  { now rewrite lookup_insert_eq. }
  rewrite lookup_insert_ne by congruence.
  destruct (decide (key = "test_dataset")) as [->|N2].
  { now rewrite lookup_insert_eq. }
  rewrite lookup_insert_ne by congruence.
  destruct (decide (key = "training_dataset")) as [->|N3].
  { now rewrite lookup_insert_eq. }
  rewrite lookup_insert_ne by congruence.
  rewrite lookup_empty. symmetry. now apply Hother.
Qed.

(** A mapping of three keys with a non-empty test set and one data point. *)
Lemma to_params_from_params_witness :
  SVMInput.to_params
    (SVMInput.mk (VDict [("A", VList [])]) (VDict [("B", VList [])])
                 (VList [VFloat 1])) =
  <["datapoints" := VList [VFloat 1]]>
    (<["test_dataset" := VDict [("B", VList [])]]>
       (<["training_dataset" := VDict [("A", VList [])]]> ∅)).
Proof.
  apply (to_params_from_params
           (<["datapoints" := VList [VFloat 1]]>
              (<["test_dataset" := VDict [("B", VList [])]]>
                 (<["training_dataset" := VDict [("A", VList [])]]> ∅)))
           (VDict [("B", VList [])]) (VList [VFloat 1]));
    try reflexivity.
  intros key N1 N2 N3.
  rewrite !lookup_insert_ne by congruence. apply lookup_empty.
Defined.

(** X5.  Whatever the attributes of the instance hold (they can be
    assigned directly), [from_params (to_params self)] is the primary
    constructor on the three attributes: it stores defaults for false
    attributes and raises where the constructor raises.  When it returns an
    instance, that instance is a fixed point of the round trip. *)
Theorem roundtrip_normalizes (self : SVMInput.t) :
  SVMInput.from_params (SVMInput.to_params self) =
    SVMInput.__init__ (SVMInput.training_dataset self)
                      (SVMInput.test_dataset self)
                      (SVMInput.datapoints self) /\
  (forall self' : SVMInput.t,
     SVMInput.from_params (SVMInput.to_params self) = Ok self' ->
     SVMInput.from_params (SVMInput.to_params self') = Ok self').
Proof.
  assert (Hrt : forall s : SVMInput.t,
             SVMInput.from_params (SVMInput.to_params s) =
             SVMInput.__init__ (SVMInput.training_dataset s)
               (SVMInput.test_dataset s) (SVMInput.datapoints s)).
  { intros s. destruct (to_params_lookup s) as (L1 & L2 & L3).
    now apply from_params_present. }
  split; [apply Hrt|].
  intros self'. rewrite !Hrt. intros H.
  apply init_fields in H as (Htr & Hte & Hdp).
  unfold SVMInput.__init__.
  rewrite (py_or_idem _ (VDict []) _ eq_refl Hte).
  rewrite (py_or_idem _ np_asarray_empty _ eq_refl Hdp).
  destruct self'; reflexivity.
Qed.

(** An instance whose optional attributes were set to [None] by hand comes
    back with the defaults. *)
Lemma roundtrip_normalizes_witness :
  SVMInput.from_params
    (SVMInput.to_params (SVMInput.mk (VInt 1) VNone VNone)) =
  Ok (SVMInput.mk (VInt 1) (VDict []) np_asarray_empty).
Proof.
  destruct (roundtrip_normalizes (SVMInput.mk (VInt 1) VNone VNone))
    as [-> _].
  reflexivity.
Defined.


(** * Further properties of [UnivariateVariationalDistribution] *)

(** X6.  [set_probabilities] writes no attribute but [_probabilities]:
    whether it returns or raises, the number of qubits, the variational
    form, the parameters, the initial distribution and the bounds of the
    object are as before the call. *)
Theorem set_probabilities_frame
    (fw : Framework) (qi : QuantumInstance) (self : UVD.t) :
  UVD._num_qubits (UVD.set_probabilities fw qi self).1 = UVD._num_qubits self /\
  UVD._var_form (UVD.set_probabilities fw qi self).1 = UVD._var_form self /\
  UVD.params (UVD.set_probabilities fw qi self).1 = UVD.params self /\
  UVD._initial_distribution (UVD.set_probabilities fw qi self).1 =
    UVD._initial_distribution self /\
  UVD._low (UVD.set_probabilities fw qi self).1 = UVD._low self /\
  UVD._high (UVD.set_probabilities fw qi self).1 = UVD._high self.
Proof.
  destruct (UVD.set_probabilities fw qi self) as [self' [u|e]] eqn:Hrun.
  - apply set_probabilities_return in Hrun as (qc0 & vfc & qc1 & _ & H).
    destruct (is_statevector qi).
    + destruct H as (res & sv & _ & _ & ->). simpl. auto 10.
    + destruct H as (qc & res & counts & _ & _ & _ & ->). simpl. auto 10.
  - apply set_probabilities_raise in Hrun as [-> _]. simpl. auto 10.
Qed.

(** X7.  The refresh is a full overwrite: when [set_probabilities]
    returns, the object it leaves does not depend on the probabilities the
    object held before the call. *)
Theorem set_probabilities_overwrites
    (fw : Framework) (qi : QuantumInstance) (self self1 : UVD.t)
    (p : list Q) (u : unit) :
  UVD.set_probabilities fw qi self = (self1, Ok u) ->
  UVD.set_probabilities fw qi (UVD.with_probabilities self p) = (self1, Ok u).
Proof.
  intros H. destruct u.
  apply set_probabilities_return in H as (qc0 & vfc & qc1 & Ha & H).
  change (assembles fw (UVD.with_probabilities self p) qc0 vfc qc1) in Ha.
  destruct (is_statevector qi) eqn:Hmode.
  - destruct H as (res & sv & H2 & H3 & ->).
    now rewrite (set_probabilities_exact_run _ _ _ _ _ _ _ _ Hmode Ha H2 H3).
  - destruct H as (qc & res & counts & Hm & H2 & H3 & ->).
    change (measured fw (UVD.with_probabilities self p) qc1 = Ok qc) in Hm.
    now rewrite (set_probabilities_sampling_run _ _ _ _ _ _ _ _ _
                   Hmode Ha Hm H2 H3).
Qed.

(** The same backend on an object that held zeros and on one that held a
    stale vector. *)
Lemma set_probabilities_overwrites_witness :
  UVD.set_probabilities qiskit_checks
    (counts_backend [("0", 1%Z); ("1", 1%Z)])
    (UVD.with_probabilities one_qubit [(7 # 8)%Q; (1 # 8)%Q; 0%Q]) =
  (UVD.with_probabilities one_qubit [(1 # 2)%Q; (1 # 2)%Q], Ok tt).
Proof.
  apply (set_probabilities_overwrites qiskit_checks
           (counts_backend [("0", 1%Z); ("1", 1%Z)]) one_qubit).
  reflexivity.
Defined.

(** X8.  In sampling mode a backend that reports no outcome at all makes
    [set_probabilities] return without an error and store the empty
    vector, which is shorter than [2**num_qubits] for every number of
    qubits. *)
Theorem set_probabilities_empty_counts
    (fw : Framework) (qi : QuantumInstance) (self : UVD.t)
    (qc0 vfc qc1 qc : Circuit) (res : Result) :
  is_statevector qi = false ->
  assembles fw self qc0 vfc qc1 ->
  measured fw self qc1 = Ok qc ->
  execute qi qc = Ok res ->
  get_counts res qc = Ok [] ->
  UVD.set_probabilities fw qi self = (UVD.with_probabilities self [], Ok tt) /\
  (length (UVD._probabilities (UVD.set_probabilities fw qi self).1)
   < 2 ^ UVD._num_qubits self)%nat.
Proof.
  intros Hmode Ha Hm H2 H3.
  pose proof (set_probabilities_sampling_run _ _ _ _ _ _ _ _ _
                Hmode Ha Hm H2 H3) as Hrun.
  split; [exact Hrun|]. rewrite Hrun. simpl.
  pose proof (Nat.pow_nonzero 2 (UVD._num_qubits self)). lia.
Qed.

Lemma set_probabilities_empty_counts_witness :
  UVD.set_probabilities qiskit_checks (counts_backend []) one_qubit =
  (UVD.with_probabilities one_qubit [], Ok tt).
Proof.
  assert (Ha : assembles qiskit_checks one_qubit
                 (QuantumCircuit (q_of one_qubit))
                 (mkCircuit [q_of one_qubit] [] [Gate "ry" [1%Q] [("q", 0%nat)]])
                 (mkCircuit [q_of one_qubit] [] [Gate "ry" [1%Q] [("q", 0%nat)]]))
    by (repeat split).
  exact (proj1 (set_probabilities_empty_counts qiskit_checks
                  (counts_backend []) one_qubit _ _ _
                  (mkCircuit [q_of one_qubit] [mkRegister 1 "c"]
                             [Gate "ry" [1%Q] [("q", 0%nat)];
                              Measure ("q", 0%nat) ("c", 0%nat)])
                  (mkResult (fun _ => Raise (ExternalError "no statevector"))
                            (fun _ => Ok []))
                  eq_refl Ha eq_refl eq_refl eq_refl)).
Defined.

(** X9.  In exact mode nothing is normalized: for any statevector the
    backend returns, of any length and any norm, the stored vector has one
    entry per amplitude, no entry is negative, and the entries sum to the
    squared norm of the statevector.  Taking the real part drops nothing:
    the imaginary part of every product is zero. *)
Theorem set_probabilities_exact_unnormalized
    (fw : Framework) (qi : QuantumInstance) (self : UVD.t)
    (qc0 vfc qc : Circuit) (res : Result) (sv : list complex) :
  is_statevector qi = true ->
  assembles fw self qc0 vfc qc ->
  execute qi qc = Ok res ->
  get_statevector res qc = Ok sv ->
  exists self' : UVD.t,
    UVD.set_probabilities fw qi self = (self', Ok tt) /\
    length (UVD._probabilities self') = length sv /\
    Forall (Qle 0) (UVD._probabilities self') /\
    (Qsum (UVD._probabilities self') == Qsum (map norm2 sv))%Q /\
    Forall (fun z => (z.2 == 0)%Q) (np_multiply sv (np_conj sv)).
Proof.
  intros Hmode Ha H2 H3.
  exists (UVD.with_probabilities self (real (np_multiply sv (np_conj sv)))).
  split; [now apply (set_probabilities_exact_run _ _ _ qc0 vfc qc res)|].
  simpl. rewrite real_multiply_conj. split; [apply length_map|].
  split; [apply squared_magnitudes_nonneg|split].
  - apply Qsum_squared_magnitudes.
  - clear. unfold np_multiply, np_conj.
    induction sv as [|z sv IH]; cbn [map zip_with]; constructor.
    + apply Cmult_conj_imaginary.
    + exact IH.
Qed.

(** A statevector of norm two on one qubit: the stored entries sum to 4. *)
Lemma set_probabilities_exact_unnormalized_witness :
  exists self' : UVD.t,
    UVD.set_probabilities qiskit_checks
      (statevector_backend [(2, 0); (0, 0)]%Q) one_qubit = (self', Ok tt) /\
    length (UVD._probabilities self') = 2%nat /\
    Forall (Qle 0) (UVD._probabilities self') /\
    (Qsum (UVD._probabilities self') == 4)%Q /\
    Forall (fun z => (z.2 == 0)%Q)
           (np_multiply [(2, 0); (0, 0)]%Q (np_conj [(2, 0); (0, 0)]%Q)).
Proof.
  assert (Ha : assembles qiskit_checks one_qubit
                 (QuantumCircuit (q_of one_qubit))
                 (mkCircuit [q_of one_qubit] [] [Gate "ry" [1%Q] [("q", 0%nat)]])
                 (mkCircuit [q_of one_qubit] [] [Gate "ry" [1%Q] [("q", 0%nat)]]))
    by (repeat split).
  exact (set_probabilities_exact_unnormalized qiskit_checks
           (statevector_backend [(2, 0); (0, 0)]%Q) one_qubit _ _ _
           (mkResult (fun _ => Ok [(2, 0); (0, 0)]%Q)
                     (fun _ => Raise (ExternalError "no counts")))
           [(2, 0); (0, 0)]%Q eq_refl Ha eq_refl eq_refl).
Defined.

(** X10.  The instructions of the circuit [set_probabilities] hands to the
    backend are the instructions [build] appends (to whatever circuit it
    is given, whenever it returns), followed, in sampling mode only, by one
    measurement per qubit: qubit [i] into bit [i] of the register ["c"].
    Without an initial distribution, [build] on the empty circuit over the
    fresh register does return, with exactly these instructions. *)
Theorem executed_circuit_is_build
    (fw : Framework) (qi : QuantumInstance) (self self' : UVD.t) (u : unit) :
  UVD.set_probabilities fw qi self = (self', Ok u) ->
  exists (executed : Circuit) (res : Result) (fragments : list Instruction),
    execute qi executed = Ok res /\
    data executed =
      fragments ++
      (if is_statevector qi then []
       else measurements (UVD._num_qubits self)) /\
    (forall qc built : Circuit,
       UVD.build fw self (q_of self) None None qc = (built, Ok tt) ->
       data built = data qc ++ fragments) /\
    (UVD._initial_distribution self = None ->
     exists built : Circuit,
       UVD.build fw self (q_of self) None None (QuantumCircuit (q_of self)) =
         (built, Ok tt) /\
       data built = fragments).
Proof.
  intros H.
  apply set_probabilities_return in H
    as (qc0 & vfc & qc1 & (Hq & H0 & H1 & He) & H).
  assert (Hbuild : forall qc built : Circuit,
            UVD.build fw self (q_of self) None None qc = (built, Ok tt) ->
            data built = data qc ++ data qc0 ++ data vfc /\
            (UVD._initial_distribution self = None -> data qc0 = [])).
  { intros qc built. rewrite build_unfold.
    unfold initial_circuit in H0. unfold var_form_circuit in H1. rewrite H1.
    destruct (UVD._initial_distribution self) as [ini|].
    - rewrite H0. destruct (extend fw qc qc0) as [qc'|e] eqn:E1; [|discriminate].
      destruct (extend fw qc' vfc) as [qc''|e] eqn:E2; [|discriminate].
      intros [= <-]. apply extend_Ok in E1 as ->. apply extend_Ok in E2 as ->.
      simpl. split; [now rewrite app_assoc|discriminate].
    - injection H0 as <-.
      destruct (extend fw qc vfc) as [qc'|e] eqn:E1; [|discriminate].
      intros [= <-]. apply extend_Ok in E1 as ->. simpl. auto. }
  assert (Hdata : data qc1 = data qc0 ++ data vfc)
    by (now apply extend_Ok in He as ->).
  assert (Hnone : UVD._initial_distribution self = None ->
            exists built : Circuit,
              UVD.build fw self (q_of self) None None
                (QuantumCircuit (q_of self)) = (built, Ok tt) /\
              data built = data qc0 ++ data vfc).
  { intros Hini. exists qc1. rewrite build_unfold.
    unfold initial_circuit in H0. unfold var_form_circuit in H1.
    rewrite Hini in *. injection H0 as <-. rewrite H1, He.
    split; [reflexivity|exact Hdata]. }
  destruct (is_statevector qi).
  - destruct H as (res & sv & H2 & _).
    exists qc1, res, (data qc0 ++ data vfc).
    split; [exact H2|]. split; [now rewrite app_nil_r|].
    split; [|exact Hnone]. intros qc built Hb. now apply Hbuild in Hb.
  - destruct H as (qc & res & counts & Hm & H2 & _).
    exists qc, res, (data qc0 ++ data vfc).
    split; [exact H2|].
    apply measured_data in Hm as (Hd & _). rewrite Hd, Hdata.
    split; [reflexivity|].
    split; [|exact Hnone]. intros qc' built Hb. now apply Hbuild in Hb.
Qed.

(** One qubit with an initial state, in sampling mode: the executed
    circuit is reset, rotation, measurement. *)
Lemma executed_circuit_is_build_witness :
  exists (executed : Circuit) (res : Result) (fragments : list Instruction),
    execute (counts_backend [("0", 1%Z)]) executed = Ok res /\
    data executed = fragments ++ [Measure ("q", 0%nat) ("c", 0%nat)] /\
    (forall qc built : Circuit,
       UVD.build qiskit_checks one_qubit_prepared (q_of one_qubit_prepared)
         None None qc = (built, Ok tt) ->
       data built = data qc ++ fragments) /\
    (UVD._initial_distribution one_qubit_prepared = None ->
     exists built : Circuit,
       UVD.build qiskit_checks one_qubit_prepared (q_of one_qubit_prepared)
         None None (QuantumCircuit (q_of one_qubit_prepared)) =
         (built, Ok tt) /\
       data built = fragments).
Proof.
  apply (executed_circuit_is_build qiskit_checks (counts_backend [("0", 1%Z)])
           one_qubit_prepared
           (UVD.with_probabilities one_qubit_prepared [(1 # 1)%Q]) tt).
  reflexivity.
Defined.

(** X11.  [build] is not atomic.  It raises exactly what one of its calls
    raises (the circuit constructions of the two collaborators and the two
    extensions of the circuit), and leaves the circuit as that call found
    it: when the initial distribution or the first extension raises, the
    circuit is as it was handed in, but when the variational form or the
    second extension raises, the circuit of the initial distribution has
    already been appended and stays. *)
Theorem build_failure
    (fw : Framework) (self : UVD.t) (q : Register)
    (q_ancillas : option Register) (params : option (list Q))
    (qc qc' : Circuit) (e : exception) :
  (UVD.build fw self q q_ancillas params qc = (qc', Raise e) <->
   build_raises fw self q qc e qc') /\
  (forall (initial_distribution : InitialState) (ic qc1 : Circuit),
     UVD._initial_distribution self = Some initial_distribution ->
     is_construct_circuit initial_distribution "circuit" q = Ok ic ->
     extend fw qc ic = Ok qc1 ->
     vf_construct_circuit (UVD._var_form self) (UVD.params self) q = Raise e ->
     UVD.build fw self q q_ancillas params qc = (qc1, Raise e) /\
     data qc1 = data qc ++ data ic).
Proof.
  split.
  - rewrite build_unfold. split.
    + destruct (UVD._initial_distribution self) as [ini|] eqn:Hini.
      * destruct (is_construct_circuit ini "circuit" q) as [ic|e0] eqn:Hic.
        2:{ intros [= <- <-]. eapply build_raises_initial; eauto. }
        destruct (extend fw qc ic) as [qc1|e1] eqn:He1.
        2:{ intros [= <- <-]. eapply build_raises_extend_initial; eauto. }
        destruct (vf_construct_circuit _ _ q) as [vfc|e2] eqn:Hvf.
        2:{ intros [= <- <-]. eapply build_raises_var_form_after; eauto. }
        destruct (extend fw qc1 vfc) as [qc2|e3] eqn:He2; [discriminate|].
        intros [= <- <-]. eapply build_raises_extend_after; eauto.
      * destruct (vf_construct_circuit _ _ q) as [vfc|e2] eqn:Hvf.
        2:{ intros [= <- <-]. now apply build_raises_var_form. }
        destruct (extend fw qc vfc) as [qc1|e1] eqn:He1; [discriminate|].
        intros [= <- <-]. eapply build_raises_extend; eauto.
    + intros [ini Hini Hic|ini ic Hini Hic He1|ini ic qc1 Hini Hic He1 Hvf
             |ini ic qc1 vfc Hini Hic He1 Hvf He2|Hini Hvf|vfc Hini Hvf He1];
        rewrite Hini.
      * now rewrite Hic.
      * now rewrite Hic, He1.
      * now rewrite Hic, He1, Hvf.
      * now rewrite Hic, He1, Hvf, He2.
      * now rewrite Hvf.
      * now rewrite Hvf, He1.
  - intros ini ic qc1 Hini Hic He1 Hvf. rewrite build_unfold.
    rewrite Hini, Hic, He1, Hvf. split; [reflexivity|].
    now apply extend_Ok in He1 as ->.
Qed.

(** The variational form rejects its parameters after the initial state
    was appended: the reset stays on the circuit. *)
Lemma build_failure_witness :
  UVD.build qiskit_checks one_qubit_failing (mkRegister 1 "q") None None
    (mkCircuit [mkRegister 1 "q"] [] [Gate "h" [] [("q", 0%nat)]]) =
  (mkCircuit [mkRegister 1 "q"] []
             [Gate "h" [] [("q", 0%nat)]; Gate "reset" [] [("q", 0%nat)]],
   Raise (ExternalError "wrong number of parameters")).
Proof.
  apply (build_failure qiskit_checks one_qubit_failing (mkRegister 1 "q")
           None None).
  eapply build_raises_var_form_after; reflexivity.
Defined.

(** X12.  In sampling mode, when no count is negative and the counts total
    is positive and below [2^63], every entry of the stored vector is a
    frequency between 0 and 1. *)
Theorem set_probabilities_sampling_bounds
    (fw : Framework) (qi : QuantumInstance) (self : UVD.t)
    (qc0 vfc qc1 qc : Circuit) (res : Result) (counts : list (string * Z)) :
  is_statevector qi = false ->
  assembles fw self qc0 vfc qc1 ->
  measured fw self qc1 = Ok qc ->
  execute qi qc = Ok res ->
  get_counts res qc = Ok counts ->
  shot_counts counts ->
  Forall (fun x => (0 <= x /\ x <= 1)%Q)
         (UVD._probabilities (UVD.set_probabilities fw qi self).1).
Proof.
  intros Hmode Ha Hm H2 H3 Hs.
  rewrite (set_probabilities_sampling_run _ _ _ _ _ _ _ _ _
             Hmode Ha Hm H2 H3).
  simpl. rewrite (normalized_shot_counts _ Hs).
  destruct Hs as [Hnn Ht].
  pose proof (frequencies_bounds counts Hnn ltac:(lia)) as Hb.
  apply (Permutation_Forall (Permutation_sym (sorted_perm _))) in Hb.
  induction Hb as [|kx l Hkx _ IH]; simpl; constructor; assumption.
Qed.

(** Seven shots, one outcome reported with count zero. *)
Lemma set_probabilities_sampling_bounds_witness :
  Forall (fun x => (0 <= x /\ x <= 1)%Q)
         (UVD._probabilities
            (UVD.set_probabilities qiskit_checks
               (counts_backend [("11", 4%Z); ("00", 3%Z); ("01", 0%Z)])
               one_qubit).1).
Proof.
  assert (Ha : assembles qiskit_checks one_qubit
                 (QuantumCircuit (q_of one_qubit))
                 (mkCircuit [q_of one_qubit] [] [Gate "ry" [1%Q] [("q", 0%nat)]])
                 (mkCircuit [q_of one_qubit] [] [Gate "ry" [1%Q] [("q", 0%nat)]]))
    by (repeat split).
  assert (Hs : shot_counts [("11", 4%Z); ("00", 3%Z); ("01", 0%Z)])
    by (split; [repeat constructor; simpl; lia|unfold total; simpl; lia]).
  exact (set_probabilities_sampling_bounds qiskit_checks
           (counts_backend [("11", 4%Z); ("00", 3%Z); ("01", 0%Z)])
           one_qubit _ _ _
           (mkCircuit [q_of one_qubit] [mkRegister 1 "c"]
                      [Gate "ry" [1%Q] [("q", 0%nat)];
                       Measure ("q", 0%nat) ("c", 0%nat)])
           (mkResult (fun _ => Raise (ExternalError "no statevector"))
                     (fun _ => Ok [("11", 4%Z); ("00", 3%Z); ("01", 0%Z)]))
           [("11", 4%Z); ("00", 3%Z); ("01", 0%Z)]
           eq_refl Ha eq_refl eq_refl eq_refl Hs).
Defined.

(** X13.  In sampling mode, when the backend reports every one of the
    [2**num_qubits] basis states under its binary numeral, in whatever
    order, with counts none of which is negative and whose total is
    positive and below [2^63], entry [i] of the stored vector is the
    frequency of the basis state of index [i], and the vector has
    [2**num_qubits] entries: the sort by key aligns the vector with the
    indices of exact mode. *)
Theorem set_probabilities_sampling_alignment
    (fw : Framework) (qi : QuantumInstance) (self : UVD.t)
    (qc0 vfc qc1 qc : Circuit) (res : Result) (counts : list (string * Z))
    (c : nat -> Z) :
  is_statevector qi = false ->
  assembles fw self qc0 vfc qc1 ->
  measured fw self qc1 = Ok qc ->
  execute qi qc = Ok res ->
  get_counts res qc = Ok counts ->
  Permutation counts (complete_counts (UVD._num_qubits self) c) ->
  shot_counts counts ->
  UVD.set_probabilities fw qi self =
    (UVD.with_probabilities self
       (map (fun i => (float (c i) / float (total counts))%Q)
            (seq 0 (2 ^ UVD._num_qubits self))),
     Ok tt) /\
  length (UVD._probabilities (UVD.set_probabilities fw qi self).1) =
    2 ^ UVD._num_qubits self.
Proof.
  intros Hmode Ha Hm H2 H3 Hp Hs.
  assert (Hrun : UVD.set_probabilities fw qi self =
    (UVD.with_probabilities self
       (map (fun i => (float (c i) / float (total counts))%Q)
            (seq 0 (2 ^ UVD._num_qubits self))),
     Ok tt)).
  { rewrite (set_probabilities_sampling_run _ _ _ _ _ _ _ _ _
               Hmode Ha Hm H2 H3).
    do 2 f_equal. rewrite (normalized_shot_counts _ Hs).
    pose proof (frequencies_complete_ascending (UVD._num_qubits self) c) as Ha'.
    rewrite <- (sorted_of_perm
                  (frequencies (complete_counts (UVD._num_qubits self) c))
                  (frequencies counts)).
    - rewrite (sorted_of_ascending _ Ha'), frequencies_complete, map_map.
      now rewrite (total_perm _ _ Hp).
    - now apply ascending_keys_NoDup.
    - apply frequencies_perm. now symmetry. }
  split; [exact Hrun|]. rewrite Hrun. simpl.
  now rewrite length_map, length_seq.
Qed.

(** Two qubits, ten shots, the four outcomes reported out of order. *)
Lemma set_probabilities_sampling_alignment_witness :
  UVD._probabilities
    (UVD.set_probabilities qiskit_checks
       (counts_backend [("10", 3%Z); ("00", 1%Z); ("11", 4%Z); ("01", 2%Z)])
       (UVD.__init__ 2 ry_form [1%Q] None 0 1)).1 =
  [(1 # 10)%Q; (2 # 10)%Q; (3 # 10)%Q; (4 # 10)%Q].
Proof.
  assert (Ha : assembles qiskit_checks (UVD.__init__ 2 ry_form [1%Q] None 0 1)
                 (QuantumCircuit (mkRegister 2 "q"))
                 (mkCircuit [mkRegister 2 "q"] []
                            [Gate "ry" [1%Q] [("q", 0%nat)]])
                 (mkCircuit [mkRegister 2 "q"] []
                            [Gate "ry" [1%Q] [("q", 0%nat)]]))
    by (repeat split).
  assert (Hs : shot_counts
                 [("10", 3%Z); ("00", 1%Z); ("11", 4%Z); ("01", 2%Z)])
    by (split; [repeat constructor; simpl; lia|unfold total; simpl; lia]).
  assert (Hp : Permutation
                 [("10", 3%Z); ("00", 1%Z); ("11", 4%Z); ("01", 2%Z)]
                 (complete_counts 2 (fun i => Z.of_nat (S i)))).
  { change (complete_counts 2 (fun i => Z.of_nat (S i)))
      with [("00", 1%Z); ("01", 2%Z); ("10", 3%Z); ("11", 4%Z)].
    apply (perm_trans (l' := [("00", 1%Z); ("10", 3%Z); ("11", 4%Z); ("01", 2%Z)])).
    - apply perm_swap.
    - apply perm_skip.
      apply (perm_trans (l' := [("10", 3%Z); ("01", 2%Z); ("11", 4%Z)])).
      + apply perm_skip. apply perm_swap.
      + apply perm_swap. }
  destruct (set_probabilities_sampling_alignment qiskit_checks
              (counts_backend [("10", 3%Z); ("00", 1%Z); ("11", 4%Z); ("01", 2%Z)])
              (UVD.__init__ 2 ry_form [1%Q] None 0 1) _ _ _
              (mkCircuit [mkRegister 2 "q"] [mkRegister 2 "c"]
                         [Gate "ry" [1%Q] [("q", 0%nat)];
                          Measure ("q", 0%nat) ("c", 0%nat);
                          Measure ("q", 1%nat) ("c", 1%nat)])
              (mkResult (fun _ => Raise (ExternalError "no statevector"))
                        (fun _ => Ok [("10", 3%Z); ("00", 1%Z);
                                      ("11", 4%Z); ("01", 2%Z)]))
              [("10", 3%Z); ("00", 1%Z); ("11", 4%Z); ("01", 2%Z)]
              (fun i => Z.of_nat (S i))
              eq_refl Ha eq_refl eq_refl eq_refl Hp Hs) as [Hrun _].
  rewrite Hrun. reflexivity.
Defined.

(** X14.  In sampling mode the stored vector depends on the proportions
    of the counts only: for counts none of which is negative and whose
    total is positive, a backend that reports [k] times every count, in
    whatever order, with the larger total still below [2^63], leads to a
    vector with equal entries. *)
Theorem set_probabilities_sampling_scale
    (fw : Framework) (qi qi' : QuantumInstance) (self : UVD.t)
    (qc0 vfc qc1 qc : Circuit) (res res' : Result)
    (counts counts' : list (string * Z)) (k : Z) :
  is_statevector qi = false ->
  is_statevector qi' = false ->
  assembles fw self qc0 vfc qc1 ->
  measured fw self qc1 = Ok qc ->
  execute qi qc = Ok res ->
  get_counts res qc = Ok counts ->
  execute qi' qc = Ok res' ->
  get_counts res' qc = Ok counts' ->
  List.NoDup (map fst counts) ->
  shot_counts counts ->
  (0 < k)%Z ->
  (k * total counts < 2 ^ 63)%Z ->
  Permutation (scale_counts k counts) counts' ->
  Forall2 Qeq (UVD._probabilities (UVD.set_probabilities fw qi' self).1)
              (UVD._probabilities (UVD.set_probabilities fw qi self).1).
Proof.
  intros Hmode Hmode' Ha Hm H2 H3 H2' H3' Hnd Hs Hk Hkt Hp.
  rewrite (set_probabilities_sampling_run _ _ _ _ _ _ _ _ _
             Hmode Ha Hm H2 H3).
  rewrite (set_probabilities_sampling_run _ _ _ _ _ _ _ _ _
             Hmode' Ha Hm H2' H3').
  simpl. apply same_entry_values.
  pose proof (shot_counts_scaled k counts Hs Hk Hkt) as Hs_scaled.
  pose proof (shot_counts_perm _ _ Hp Hs_scaled) as Hs'.
  rewrite (normalized_shot_counts _ Hs), (normalized_shot_counts _ Hs').
  assert (Hkeys : map fst (scale_counts k counts) = map fst counts).
  { unfold scale_counts. now rewrite map_map. }
  rewrite <- (sorted_of_perm (frequencies (scale_counts k counts))
                             (frequencies counts')).
  - apply sorted_same_entry.
    + apply frequencies_scaled; [exact Hk|]. destruct Hs as [_ Ht]. lia.
    + now rewrite frequencies_keys, Hkeys.
  - now rewrite frequencies_keys, Hkeys.
  - now apply frequencies_perm.
Qed.

(** Three shots against nine shots with the same proportions. *)
Lemma set_probabilities_sampling_scale_witness :
  Forall2 Qeq
    (UVD._probabilities
       (UVD.set_probabilities qiskit_checks
          (counts_backend [("1", 3%Z); ("0", 6%Z)]) one_qubit).1)
    (UVD._probabilities
       (UVD.set_probabilities qiskit_checks
          (counts_backend [("0", 2%Z); ("1", 1%Z)]) one_qubit).1).
Proof.
  assert (Ha : assembles qiskit_checks one_qubit
                 (QuantumCircuit (q_of one_qubit))
                 (mkCircuit [q_of one_qubit] [] [Gate "ry" [1%Q] [("q", 0%nat)]])
                 (mkCircuit [q_of one_qubit] [] [Gate "ry" [1%Q] [("q", 0%nat)]]))
    by (repeat split).
  assert (Hnd : List.NoDup (map fst [("0", 2%Z); ("1", 1%Z)]))
    by (repeat constructor; simpl; intuition discriminate).
  assert (Hs : shot_counts [("0", 2%Z); ("1", 1%Z)])
    by (split; [repeat constructor; simpl; lia|unfold total; simpl; lia]).
  assert (Hkt : (3 * total [("0", 2%Z); ("1", 1%Z)] < 2 ^ 63)%Z)
    by (unfold total; simpl; lia).
  exact (set_probabilities_sampling_scale qiskit_checks
           (counts_backend [("0", 2%Z); ("1", 1%Z)])
           (counts_backend [("1", 3%Z); ("0", 6%Z)])
           one_qubit _ _ _
           (mkCircuit [q_of one_qubit] [mkRegister 1 "c"]
                      [Gate "ry" [1%Q] [("q", 0%nat)];
                       Measure ("q", 0%nat) ("c", 0%nat)])
           (mkResult (fun _ => Raise (ExternalError "no statevector"))
                     (fun _ => Ok [("0", 2%Z); ("1", 1%Z)]))
           (mkResult (fun _ => Raise (ExternalError "no statevector"))
                     (fun _ => Ok [("1", 3%Z); ("0", 6%Z)]))
           [("0", 2%Z); ("1", 1%Z)] [("1", 3%Z); ("0", 6%Z)] 3%Z
           eq_refl eq_refl Ha eq_refl eq_refl eq_refl eq_refl eq_refl
           Hnd Hs eq_refl Hkt (perm_swap _ _ _)).
Defined.

(** X15.  In sampling mode, when the keys the backend reports are
    distinct strings of [num_qubits] bits, the stored vector has at most
    [2**num_qubits] entries. *)
Theorem set_probabilities_sampling_length_le
    (fw : Framework) (qi : QuantumInstance) (self : UVD.t)
    (qc0 vfc qc1 qc : Circuit) (res : Result) (counts : list (string * Z)) :
  is_statevector qi = false ->
  assembles fw self qc0 vfc qc1 ->
  measured fw self qc1 = Ok qc ->
  execute qi qc = Ok res ->
  get_counts res qc = Ok counts ->
  List.NoDup (map fst counts) ->
  Forall (fun kv => is_bitstring (UVD._num_qubits self) kv.1 = true) counts ->
  (length (UVD._probabilities (UVD.set_probabilities fw qi self).1)
   <= 2 ^ UVD._num_qubits self)%nat.
Proof.
  intros Hmode Ha Hm H2 H3 Hnd Hbits.
  rewrite (set_probabilities_sampling_run _ _ _ _ _ _ _ _ _
             Hmode Ha Hm H2 H3).
  simpl. rewrite length_map, (Permutation_length (sorted_perm _)).
  unfold normalized. rewrite length_map.
  now apply bit_keys_length_le.
Qed.

(** Two of the four outcomes of two qubits observed. *)
Lemma set_probabilities_sampling_length_le_witness :
  (length (UVD._probabilities
             (UVD.set_probabilities qiskit_checks
                (counts_backend [("10", 1%Z); ("01", 1%Z)])
                (UVD.__init__ 2 ry_form [1%Q] None 0 1)).1) <= 2 ^ 2)%nat.
Proof.
  assert (Ha : assembles qiskit_checks (UVD.__init__ 2 ry_form [1%Q] None 0 1)
                 (QuantumCircuit (mkRegister 2 "q"))
                 (mkCircuit [mkRegister 2 "q"] []
                            [Gate "ry" [1%Q] [("q", 0%nat)]])
                 (mkCircuit [mkRegister 2 "q"] []
                            [Gate "ry" [1%Q] [("q", 0%nat)]]))
    by (repeat split).
  assert (Hnd : List.NoDup (map fst [("10", 1%Z); ("01", 1%Z)]))
    by (repeat constructor; simpl; intuition discriminate).
  assert (Hbits : Forall (fun kv : string * Z => is_bitstring 2 kv.1 = true)
                         [("10", 1%Z); ("01", 1%Z)])
    by (repeat constructor).
  exact (set_probabilities_sampling_length_le qiskit_checks
           (counts_backend [("10", 1%Z); ("01", 1%Z)])
           (UVD.__init__ 2 ry_form [1%Q] None 0 1) _ _ _
           (mkCircuit [mkRegister 2 "q"] [mkRegister 2 "c"]
                      [Gate "ry" [1%Q] [("q", 0%nat)];
                       Measure ("q", 0%nat) ("c", 0%nat);
                       Measure ("q", 1%nat) ("c", 1%nat)])
           (mkResult (fun _ => Raise (ExternalError "no statevector"))
                     (fun _ => Ok [("10", 1%Z); ("01", 1%Z)]))
           [("10", 1%Z); ("01", 1%Z)]
           eq_refl Ha eq_refl eq_refl eq_refl Hnd Hbits).
Defined.
